(** * ip_diffim: kernel-candidate detection and basis-set declarations

    A shallow embedding of
    - [src/src/KernelCandidateDetection.cc] (constructor, [apply],
      [growCandidate]), and
    - the declarations of [src/include/lsst/ip/diffim/BasisSets.h],
    together with the properties the specification states about them.

    Integers of the C++ code are modelled as [Z]; where the source does
    arithmetic in [int] (the sum of two box corners) or converts between
    signed and unsigned ([static_cast<std::size_t>]) the wrap-around is
    written out.  The object state of
    [KernelCandidateDetection] is threaded explicitly, exceptions are values
    of [Result], and the recursion of [growCandidate], which is not
    structural, is bounded by a call-depth budget. *)

From Stdlib Require Import ZArith List Bool String Lia.
Import ListNotations.
Local Open Scope Z_scope.

(* ------------------------------------------------------------------ *)
(** ** Exceptions *)

(** The exception classes of [lsst::pex::exceptions] that occur here.  All of
    them derive from [pexExcept::Exception], which is what the source's
    [catch] clauses name. *)
Inductive Exception : Type :=
| InvalidParameterError (what : string)
| LengthError (what : string)
| BaseException (what : string).

Inductive Result (A : Type) : Type :=
| Ok (a : A)
| Throw (e : Exception).
Arguments Ok {A} a.
Arguments Throw {A} e.

Definition bind {A B : Type} (r : Result A) (k : A -> Result B) : Result B :=
  match r with
  | Ok a => k a
  | Throw e => Throw e
  end.

(** [try { body } catch (pexExcept::Exception& e) { handler }] *)
Definition try_catch {A : Type} (body : Result A) (handler : Exception -> Result A)
  : Result A :=
  match body with
  | Ok a => Ok a
  | Throw e => handler e
  end.

Definition throws {A : Type} (r : Result A) : bool :=
  match r with
  | Ok _ => false
  | Throw _ => true
  end.

Notation "x <- c1 ;; c2" := (bind c1 (fun x => c2))
  (at level 61, c1 at next level, right associativity).

(* ------------------------------------------------------------------ *)
(** ** Geometry collaborator ([lsst::afw::geom]) *)

Module Geom.

Record Point2I : Type := mkPoint2I { getX : Z; getY : Z }.
Record Extent2I : Type := mkExtent2I { getWidth : Z; getHeight : Z }.

Definition Point2I_eq_dec (p q : Point2I) : {p = q} + {p <> q}.
Proof. decide equality; apply Z.eq_dec. Defined.

(** Modelled from the spec: the bounding box of the image collaborator
    ([afw::geom::Box2I], not part of this repository).  A box is a minimum
    corner and its dimensions; the empty box has zero dimensions. *)
Record Box2I : Type := mkBox2I { _minimum : Point2I; _dimensions : Extent2I }.

Definition Box2I_empty : Box2I := mkBox2I (mkPoint2I 0 0) (mkExtent2I 0 0).

(** [Box2I(Point2I minimum, Extent2I dimensions)]: a box with a non-positive
    dimension is the empty box. *)
Definition Box2I_new (minimum : Point2I) (dimensions : Extent2I) : Box2I :=
  if (getWidth dimensions <=? 0) || (getHeight dimensions <=? 0)
  then Box2I_empty
  else mkBox2I minimum dimensions.

Definition getMinX (b : Box2I) : Z := getX (_minimum b).
Definition getMinY (b : Box2I) : Z := getY (_minimum b).
Definition getMaxX (b : Box2I) : Z := getX (_minimum b) + getWidth (_dimensions b) - 1.
Definition getMaxY (b : Box2I) : Z := getY (_minimum b) + getHeight (_dimensions b) - 1.

Definition isEmpty (b : Box2I) : bool :=
  (getWidth (_dimensions b) <=? 0) || (getHeight (_dimensions b) <=? 0).

(** [b.contains(other)]: the empty box is contained in every box. *)
Definition contains (b other : Box2I) : bool :=
  isEmpty other ||
  ((getMinX b <=? getMinX other) && (getMinY b <=? getMinY other) &&
   (getMaxX other <=? getMaxX b) && (getMaxY other <=? getMaxY b)).

(** [b.contains(Point2I)] *)
Definition containsPoint (b : Box2I) (p : Point2I) : bool :=
  (getMinX b <=? getX p) && (getX p <=? getMaxX b) &&
  (getMinY b <=? getY p) && (getY p <=? getMaxY b).

(** The integers [lo, lo+1, ..., lo+n-1]. *)
Definition Zrange (lo : Z) (n : nat) : list Z :=
  map (fun i => lo + Z.of_nat i) (seq 0 n).

(** The pixels of a box, row by row. *)
Definition Box2I_pixels (b : Box2I) : list Point2I :=
  flat_map
    (fun y => map (fun x => mkPoint2I x y)
                  (Zrange (getMinX b) (Z.to_nat (getWidth (_dimensions b)))))
    (Zrange (getMinY b) (Z.to_nat (getHeight (_dimensions b)))).

(** Modelled from the spec: a region is "an irregular set of pixel
    coordinates plus its derived bounding box" ([afw::geom::SpanSet], not part
    of this repository).  The set is kept as the list of its pixels; a pixel
    listed twice counts once. *)
Definition SpanSet : Type := list Point2I.

(** [SpanSet(Box2I)]: the region covering a box. *)
Definition SpanSet_of_box (b : Box2I) : SpanSet := Box2I_pixels b.

Definition SpanSet_getArea (s : SpanSet) : Z :=
  Z.of_nat (List.length (nodup Point2I_eq_dec s)).

Definition Zmin_list (x : Z) (l : list Z) : Z := fold_right Z.min x l.
Definition Zmax_list (x : Z) (l : list Z) : Z := fold_right Z.max x l.

(** The derived bounding box: empty for the empty region, else the smallest
    box holding every pixel. *)
Definition SpanSet_getBBox (s : SpanSet) : Box2I :=
  match s with
  | [] => Box2I_empty
  | p :: ps =>
      let x0 := Zmin_list (getX p) (map getX ps) in
      let x1 := Zmax_list (getX p) (map getX ps) in
      let y0 := Zmin_list (getY p) (map getY ps) in
      let y1 := Zmax_list (getY p) (map getY ps) in
      mkBox2I (mkPoint2I x0 y0) (mkExtent2I (x1 - x0 + 1) (y1 - y0 + 1))
  end.

Inductive Stencil : Type := CIRCLE | MANHATTAN | BOX.

(** Half-width of the structuring element of radius [r] on the row at
    vertical offset [dy]: an L1 ball (diamond) for [MANHATTAN], an L2 ball for
    [CIRCLE], a square for [BOX]. *)
Definition stencil_halfwidth (s : Stencil) (r dy : Z) : Z :=
  match s with
  | MANHATTAN => r - Z.abs dy
  | CIRCLE => Z.sqrt (r * r - dy * dy)
  | BOX => r
  end.

(** The offsets of the structuring element of radius [r]; none for a
    negative radius. *)
Definition stencil_offsets (r : Z) (s : Stencil) : list Point2I :=
  flat_map
    (fun dy =>
       let dx := stencil_halfwidth s r dy in
       map (fun ddx => mkPoint2I ddx dy) (Zrange (- dx) (Z.to_nat (2 * dx + 1))))
    (Zrange (- r) (Z.to_nat (2 * r + 1))).

(** Modelled from the spec: dilation, "expanding a region by including all
    pixels within a given distance under a chosen metric"
    ([SpanSet::dilated], not part of this repository): every pixel of the
    region translated by every offset of the structuring element. *)
Definition SpanSet_dilated (s : SpanSet) (r : Z) (st : Stencil) : SpanSet :=
  flat_map
    (fun p => map (fun d => mkPoint2I (getX p + getX d) (getY p + getY d))
                  (stencil_offsets r st))
    s.

End Geom.
Import Geom.

(* ------------------------------------------------------------------ *)
(** ** Detection and image collaborators *)

(** [afw::detection::Footprint]: the region it owns (its peaks play no part
    here).  A region's area and bounding box are those of its span set. *)
Record Footprint : Type := mkFootprint { getSpans : SpanSet }.

Definition Footprint_getArea (fp : Footprint) : Z := SpanSet_getArea (getSpans fp).
Definition Footprint_getBBox (fp : Footprint) : Box2I := SpanSet_getBBox (getSpans fp).

(** [afwImage::MaskPixel]: a bit field. *)
Definition MaskPixel : Type := Z.

(** [afwImage::Mask]: a rectangle of mask pixels, addressed in parent
    coordinates. *)
Record Mask : Type := mkMask { Mask_getBBox : Box2I; Mask_pixel : Point2I -> MaskPixel }.

(** The mask-plane registry, [Mask::getPlaneBitMask]'s dictionary from plane
    name to bit position. *)
Definition MaskPlaneDict : Type := list (string * Z).

Fixpoint getMaskPlane (dict : MaskPlaneDict) (name : string) : option Z :=
  match dict with
  | [] => None
  | (n, plane) :: rest => if String.eqb n name then Some plane else getMaskPlane rest name
  end.

(** Modelled from the spec: the mask-plane registry collaborator "maps a
    named mask-plane string to its bit position; unknown names fail"
    ([Mask::getPlaneBitMask], not part of this repository). *)
Definition getPlaneBitMask (dict : MaskPlaneDict) (name : string) : Result MaskPixel :=
  match getMaskPlane dict name with
  | Some plane => Ok (Z.shiftl 1 plane)
  | None => Throw (InvalidParameterError name)
  end.

(** Modelled from the spec: the functor of [lsst/ip/diffim/FindSetBits.h]
    (not under src/), which collects the bits set anywhere in a mask:
    [apply] restarts from no bits and ORs in every pixel. *)
Record FindSetBits : Type := mkFindSetBits { getBits : MaskPixel }.

Definition FindSetBits_new : FindSetBits := mkFindSetBits 0.

Definition FindSetBits_apply (fsb : FindSetBits) (mask : Mask) : FindSetBits :=
  mkFindSetBits
    (fold_left (fun bits p => Z.lor bits (Mask_pixel mask p))
               (Box2I_pixels (Mask_getBBox mask)) 0).

(** [static_cast<std::size_t>(int)] on a 64-bit target. *)
Definition static_cast_size_t (n : Z) : Z := n mod 2 ^ 64.

(** A C++ [int] is 32 bits wide, two's complement: a result that leaves the
    range wraps around. *)
Definition int_wrap (n : Z) : Z := (n + 2 ^ 31) mod 2 ^ 32 - 2 ^ 31.

(** [int(0.5 * (a + b))] on two [int]s: the sum is formed in [int], its
    product with 0.5 is exact in double precision, and the conversion back to
    [int] truncates toward zero. *)
Definition int_half_sum (a b : Z) : Z := Z.quot (int_wrap (a + b)) 2.

Section KernelCandidateDetection.

(** [template <typename PixelT>]: the image and variance planes are only
    handed to the detector. *)
Context {PixelT : Type}.
(** The detection threshold is a [double] that is only handed on as well. *)
Context {double : Type}.

Record MaskedImage : Type := mkMaskedImage {
  MaskedImage_getBBox : Box2I;
  MaskedImage_image : Point2I -> PixelT;
  MaskedImage_mask : Point2I -> MaskPixel;
  MaskedImage_variance : Point2I -> PixelT
}.

Definition getMask (img : MaskedImage) : Mask :=
  mkMask (MaskedImage_getBBox img) (MaskedImage_mask img).

(** Modelled from the spec: "rectangular sub-image extraction by bounding
    box (may fail ...)" ([MaskedImage(MaskedImage const&, Box2I const&)], not
    part of this repository): a view of the parent's pixels over [bbox],
    refused with a [LengthError] when [bbox] does not fit in the parent. *)
Definition MaskedImage_subimage (img : MaskedImage) (bbox : Box2I) : Result MaskedImage :=
  if contains (MaskedImage_getBBox img) bbox
  then Ok (mkMaskedImage bbox (MaskedImage_image img) (MaskedImage_mask img)
                         (MaskedImage_variance img))
  else Throw (LengthError "Box does not fit in image").

(** The options of [lsst::pex::policy::Policy] read by this class. *)
Record Policy : Type := mkPolicy {
  badMaskPlanes : list string;
  fpNpixMin : Z;
  fpNpixMax : Z;
  fpGrowPix : Z;
  detOnTemplate : bool;
  detThreshold : double;
  detThresholdType : string
}.

(** The detector collaborator: [afwDetect::createThreshold] and the
    footprints of [afwDetect::FootprintSet(image, threshold, planeName,
    npixMin)]. *)
Context {Threshold : Type}.
Variable createThreshold : double -> string -> Threshold.
Variable FootprintSet_getFootprints :
  MaskedImage -> Threshold -> string -> Z -> list Footprint.

(** The static mask-plane dictionary of [afwImage::Mask]. *)
Variable maskPlaneDict : MaskPlaneDict.

(** The data members of [KernelCandidateDetection<PixelT>]. *)
Record KernelCandidateDetection : Type := mkKernelCandidateDetection {
  _policy : Policy;
  _badBitMask : MaskPixel;
  _footprints : list Footprint
}.

Definition set_footprints (self : KernelCandidateDetection) (fps : list Footprint)
  : KernelCandidateDetection :=
  mkKernelCandidateDetection (_policy self) (_badBitMask self) fps.

(** [_footprints.push_back(fp)] *)
Definition push_back (self : KernelCandidateDetection) (fp : Footprint)
  : KernelCandidateDetection :=
  set_footprints self (_footprints self ++ [fp]).

(** The constructor's loop over [badMaskPlanes]: each plane's bit is ORed
    into the mask inside a [try]; the [catch] only logs. *)
Fixpoint updateBadBitMask (planes : list string) (badBitMask : MaskPixel)
  : Result MaskPixel :=
  match planes with
  | [] => Ok badBitMask
  | mi :: rest =>
      badBitMask' <-
        try_catch
          (bit <- getPlaneBitMask maskPlaneDict mi ;; Ok (Z.lor badBitMask bit))
          (fun e => Ok badBitMask) ;;
      updateBadBitMask rest badBitMask'
  end.

(** [KernelCandidateDetection::KernelCandidateDetection(policy)] *)
Definition new_KernelCandidateDetection (policy : Policy)
  : Result KernelCandidateDetection :=
  let detBadMaskPlanes := badMaskPlanes policy in
  badBitMask <- updateBadBitMask detBadMaskPlanes 0 ;;
  Ok (mkKernelCandidateDetection policy badBitMask []).

(** The single-pixel footprint at the centre of a bounding box,
    [Footprint(SpanSet(Box2I(Point2I(xc, yc), Extent2I(1, 1))))]. *)
Definition fpCore_of (fpBBox : Box2I) : Footprint :=
  let xc := int_half_sum (getMinX fpBBox) (getMaxX fpBBox) in
  let yc := int_half_sum (getMinY fpBBox) (getMaxY fpBBox) in
  mkFootprint (SpanSet_of_box (Box2I_new (mkPoint2I xc yc) (mkExtent2I 1 1))).

(** The [try] block of [growCandidate]: extract both sub-images and search
    their masks; the value is [subimageHasFailed]. *)
Definition checkSubimages (badBitMask : MaskPixel)
    (templateMaskedImage scienceMaskedImage : MaskedImage) (fpGrowBBox : Box2I)
  : Result bool :=
  let subimageHasFailed := false in
  try_catch
    (templateSubimage <- MaskedImage_subimage templateMaskedImage fpGrowBBox ;;
     scienceSubimage <- MaskedImage_subimage scienceMaskedImage fpGrowBBox ;;
     let fsb := FindSetBits_new in
     let fsb := FindSetBits_apply fsb (getMask templateSubimage) in
     let subimageHasFailed :=
       if negb (Z.land (getBits fsb) badBitMask =? 0) then true else subimageHasFailed in
     let fsb := FindSetBits_apply fsb (getMask scienceSubimage) in
     let subimageHasFailed :=
       if negb (Z.land (getBits fsb) badBitMask =? 0) then true else subimageHasFailed in
     Ok subimageHasFailed)
    (fun e => Ok true).

(** [KernelCandidateDetection::growCandidate].  [fuel] bounds the depth of
    the call stack: the function calls itself on the core of an oversized
    footprint, and [None] means the budget was used up. *)
Fixpoint growCandidate (fuel : nat) (fp : Footprint) (fpGrowPix : Z)
    (templateMaskedImage scienceMaskedImage : MaskedImage)
    (self : KernelCandidateDetection)
  : option (Result bool * KernelCandidateDetection) :=
  match fuel with
  | O => None
  | S fuel' =>
      let fpNpixMax := fpNpixMax (_policy self) in
      let fpBBox := Footprint_getBBox fp in
      if Footprint_getArea fp >? static_cast_size_t fpNpixMax then
        let fpCore := fpCore_of fpBBox in
        growCandidate fuel' fpCore fpGrowPix templateMaskedImage scienceMaskedImage self
      else
        let fpGrow := mkFootprint (SpanSet_dilated (getSpans fp) fpGrowPix MANHATTAN) in
        let fpGrowBBox := Footprint_getBBox fpGrow in
        if negb (contains (MaskedImage_getBBox templateMaskedImage) fpGrowBBox) then
          Some (Ok false, self)
        else
          match checkSubimages (_badBitMask self) templateMaskedImage
                               scienceMaskedImage fpGrowBBox with
          | Throw e => Some (Throw e, self)
          | Ok subimageHasFailed =>
              if subimageHasFailed then Some (Ok false, self)
              else Some (Ok true, push_back self fpGrow)
          end
  end.

(** The loop of [apply] over the detected footprints; the value of each
    [growCandidate] call is dropped. *)
Fixpoint growCandidates (fuel : nat) (footprintList : list Footprint) (fpGrowPix : Z)
    (templateMaskedImage scienceMaskedImage : MaskedImage)
    (self : KernelCandidateDetection)
  : option (Result unit * KernelCandidateDetection) :=
  match footprintList with
  | [] => Some (Ok tt, self)
  | i :: rest =>
      match growCandidate fuel i fpGrowPix templateMaskedImage scienceMaskedImage self with
      | None => None
      | Some (Throw e, self') => Some (Throw e, self')
      | Some (Ok _, self') =>
          growCandidates fuel rest fpGrowPix templateMaskedImage scienceMaskedImage self'
      end
  end.

(** The footprints detection hands to [apply]. *)
Definition detectedFootprints (policy : Policy)
    (templateMaskedImage scienceMaskedImage : MaskedImage) : list Footprint :=
  let fpNpixMin := fpNpixMin policy in
  let threshold := createThreshold (detThreshold policy) (detThresholdType policy) in
  if detOnTemplate policy
  then FootprintSet_getFootprints templateMaskedImage threshold "" fpNpixMin
  else FootprintSet_getFootprints scienceMaskedImage threshold "" fpNpixMin.

(** [KernelCandidateDetection::apply] *)
Definition apply (fuel : nat) (templateMaskedImage scienceMaskedImage : MaskedImage)
    (self : KernelCandidateDetection)
  : option (Result unit * KernelCandidateDetection) :=
  let fpGrowPix := fpGrowPix (_policy self) in
  let self := set_footprints self [] in
  let footprintListIn :=
    detectedFootprints (_policy self) templateMaskedImage scienceMaskedImage in
  match growCandidates fuel footprintListIn fpGrowPix
                       templateMaskedImage scienceMaskedImage self with
  | None => None
  | Some (Throw e, self') => Some (Throw e, self')
  | Some (Ok _, self') =>
      if Z.of_nat (List.length (_footprints self')) =? 0
      then Some (Throw (BaseException "Unable to find any footprints for Psf matching"),
                 self')
      else Some (Ok tt, self')
  end.

(** *** Notions used to state the properties *)

(** The test of "Failure Condition 1" of [growCandidate]. *)
Definition oversized (self : KernelCandidateDetection) (fp : Footprint) : bool :=
  Footprint_getArea fp >? static_cast_size_t (fpNpixMax (_policy self)).

(** The region [growCandidate] goes on to grow: the footprint it was handed,
    or the core of an oversized one. *)
Definition candidateRegion (self : KernelCandidateDetection) (fp : Footprint)
  : Footprint :=
  if oversized self fp then fpCore_of (Footprint_getBBox fp) else fp.

(** The grown footprint [growCandidate] builds from [fp]. *)
Definition fpGrow_of (fp : Footprint) (fpGrowPix : Z) : Footprint :=
  mkFootprint (SpanSet_dilated (getSpans fp) fpGrowPix MANHATTAN).

(** Some pixel of [img]'s mask over [bbox] has a bit of [badBitMask] set. *)
Definition maskIntersects (badBitMask : MaskPixel) (img : MaskedImage) (bbox : Box2I)
  : Prop :=
  exists p, containsPoint bbox p = true /\
            Z.land (MaskedImage_mask img p) badBitMask <> 0.

(** The causes for which [growCandidate] turns a grown footprint down. *)
Definition grownOffImage (templateMaskedImage : MaskedImage) (fpGrowBBox : Box2I)
  : Prop :=
  contains (MaskedImage_getBBox templateMaskedImage) fpGrowBBox = false.

Definition extractionFails (img : MaskedImage) (fpGrowBBox : Box2I) : Prop :=
  throws (MaskedImage_subimage img fpGrowBBox) = true.

Definition contaminated (badBitMask : MaskPixel)
    (templateMaskedImage scienceMaskedImage : MaskedImage) (fpGrowBBox : Box2I)
  : Prop :=
  extractionFails templateMaskedImage fpGrowBBox \/
  extractionFails scienceMaskedImage fpGrowBBox \/
  maskIntersects badBitMask templateMaskedImage fpGrowBBox \/
  maskIntersects badBitMask scienceMaskedImage fpGrowBBox.

(** [growCandidate] returned [true] on [fp]. *)
Definition accepts (fuel : nat) (fp : Footprint) (fpGrowPix : Z)
    (templateMaskedImage scienceMaskedImage : MaskedImage)
    (self : KernelCandidateDetection) : bool :=
  match growCandidate fuel fp fpGrowPix templateMaskedImage scienceMaskedImage self with
  | Some (Ok true, _) => true
  | _ => false
  end.

(** What the specification asks of a member [g] of the candidate list. *)
Definition cleanCandidate (badBitMask : MaskPixel) (fpGrowPix : Z)
    (templateMaskedImage scienceMaskedImage : MaskedImage) (g : Footprint) : Prop :=
  (exists fp, g = fpGrow_of fp fpGrowPix) /\
  contains (MaskedImage_getBBox templateMaskedImage) (Footprint_getBBox g) = true /\
  contains (MaskedImage_getBBox scienceMaskedImage) (Footprint_getBBox g) = true /\
  ~ maskIntersects badBitMask templateMaskedImage (Footprint_getBBox g) /\
  ~ maskIntersects badBitMask scienceMaskedImage (Footprint_getBBox g).

(** The bit masks of the names the registry knows, in the order configured. *)
Definition recognizedBitMasks (planes : list string) : list MaskPixel :=
  flat_map
    (fun name => match getMaskPlane maskPlaneDict name with
                 | Some plane => [Z.shiftl 1 plane]
                 | None => []
                 end)
    planes.

End KernelCandidateDetection.

(** Largest value of a C++ [int]. *)
Definition INT_MAX : Z := 2 ^ 31 - 1.

(** Smallest value of a C++ [int]. *)
Definition INT_MIN : Z := - 2 ^ 31.

(* ------------------------------------------------------------------ *)
(** ** BasisSets.h *)

Module BasisSets.

Inductive BoundStyle : Type := UNWRAPPED | WRAPPED | TAPERED | NBOUND.
Inductive DiffStyle : Type := FORWARD_DIFFERENCE | CENTRAL_DIFFERENCE | NDIFF.

(** The enumerators' values, as the header's comment lists them
    (0 = unwrapped, 1 = wrapped, 2 = order-tapered). *)
Definition BoundStyle_value (b : BoundStyle) : Z :=
  match b with UNWRAPPED => 0 | WRAPPED => 1 | TAPERED => 2 | NBOUND => 3 end.

Definition DiffStyle_value (d : DiffStyle) : Z :=
  match d with FORWARD_DIFFERENCE => 0 | CENTRAL_DIFFERENCE => 1 | NDIFF => 2 end.

(** The trailing arguments a call of [generateFiniteDifferenceRegularization]
    may write out: none, the boundary style, or both styles. *)
Inductive StyleArgs : Type :=
| NoStyle
| WithBoundary (boundaryStyle : BoundStyle)
| WithBoth (boundaryStyle : BoundStyle) (differenceStyle : DiffStyle).

(** [BoundStyle boundaryStyle = WRAPPED] *)
Definition boundaryStyle_applied (a : StyleArgs) : BoundStyle :=
  match a with
  | NoStyle => WRAPPED
  | WithBoundary b => b
  | WithBoth b _ => b
  end.

(** [DiffStyle differenceStyle = FORWARD_DIFFERENCE] *)
Definition differenceStyle_applied (a : StyleArgs) : DiffStyle :=
  match a with
  | NoStyle => FORWARD_DIFFERENCE
  | WithBoundary _ => FORWARD_DIFFERENCE
  | WithBoth _ d => d
  end.

Section Regularization.

Context {MatrixXd : Type}.

(** The function's body (BasisSets.cc) is not under src/; the header fixes
    how a call's arguments are completed before the body runs. *)
Variable body : N -> N -> N -> BoundStyle -> DiffStyle -> MatrixXd.

Definition generateFiniteDifferenceRegularization
    (width height order : N) (styles : StyleArgs) : MatrixXd :=
  body width height order (boundaryStyle_applied styles) (differenceStyle_applied styles).

End Regularization.

End BasisSets.

(* ------------------------------------------------------------------ *)
(** ** A concrete pass: the end-to-end scenarios of the specification *)

Module Scenario.

Definition image64 (mask : Point2I -> MaskPixel) : @MaskedImage Z :=
  mkMaskedImage (Box2I_new (mkPoint2I 0 0) (mkExtent2I 64 64))
                (fun _ => 0) mask (fun _ => 1).

(** No mask bit set anywhere. *)
Definition cleanImage : @MaskedImage Z := image64 (fun _ => 0).

(** One bad mask bit at pixel (31,31). *)
Definition flaggedImage : @MaskedImage Z :=
  image64 (fun p => if Point2I_eq_dec p (mkPoint2I 31 31) then 1 else 0).

(** A science image smaller than the template. *)
Definition smallImage : @MaskedImage Z :=
  mkMaskedImage (Box2I_new (mkPoint2I 0 0) (mkExtent2I 32 32))
                (fun _ => 0) (fun _ => 0) (fun _ => 1).

Definition planes : MaskPlaneDict :=
  [("BAD", 0); ("SAT", 1); ("INTRP", 2); ("CR", 3); ("EDGE", 4)]%string.

Definition policy : @Policy Z :=
  mkPolicy ["BAD"; "NO_SUCH_PLANE"; "SAT"]%string 5 500 5 true 10 "stdev"%string.

(** A 5x5 source around (30,30). *)
Definition source : Footprint :=
  mkFootprint (SpanSet_of_box (Box2I_new (mkPoint2I 28 28) (mkExtent2I 5 5))).

(** A 3x3 source in the corner of the image. *)
Definition cornerSource : Footprint :=
  mkFootprint (SpanSet_of_box (Box2I_new (mkPoint2I 0 0) (mkExtent2I 3 3))).

(** A 30x30 source, more pixels than [fpNpixMax]. *)
Definition extendedSource : Footprint :=
  mkFootprint (SpanSet_of_box (Box2I_new (mkPoint2I 10 10) (mkExtent2I 30 30))).

Definition threshold (value : Z) (type : string) : Z * string := (value, type).

Definition detector (_ : @MaskedImage Z) (_ : Z * string) (_ : string) (_ : Z)
  : list Footprint := [cornerSource; source].

Definition detection : @KernelCandidateDetection Z :=
  mkKernelCandidateDetection policy 3 [].

(** The same configuration with [fpNpixMax] set to 0, and to -1. *)
Definition policyZeroMax : @Policy Z :=
  mkPolicy ["BAD"; "NO_SUCH_PLANE"; "SAT"]%string 5 0 5 true 10 "stdev"%string.

Definition detectionZeroMax : @KernelCandidateDetection Z :=
  mkKernelCandidateDetection policyZeroMax 3 [].

Definition policyNegativeMax : @Policy Z :=
  mkPolicy ["BAD"; "NO_SUCH_PLANE"; "SAT"]%string 5 (-1) 5 true 10 "stdev"%string.

Definition detectionNegativeMax : @KernelCandidateDetection Z :=
  mkKernelCandidateDetection policyNegativeMax 3 [].

(** The same planes listed in another order, one of them twice. *)
Definition policyReordered : @Policy Z :=
  mkPolicy ["SAT"; "BAD"; "SAT"]%string 5 500 5 true 10 "stdev"%string.

(** Plane names the registry does not know. *)
Definition policyMisspelt : @Policy Z :=
  mkPolicy ["BDA"; "SATURATED"]%string 5 500 5 true 10 "stdev"%string.

(** The object with fewer bad bits ([BAD] only), and with none. *)
Definition detectionBadOnly : @KernelCandidateDetection Z :=
  mkKernelCandidateDetection policy 1 [].

Definition detectionNoBadBits : @KernelCandidateDetection Z :=
  mkKernelCandidateDetection policy 0 [].




(** An image whose only set mask bit, at (31,31), is [SAT]. *)
Definition saturatedImage : @MaskedImage Z :=
  image64 (fun p => if Point2I_eq_dec p (mkPoint2I 31 31) then 2 else 0).

(** An image flagged far from the source, at (60,60), with other pixel
    values. *)
Definition flaggedElsewhereImage : @MaskedImage Z :=
  mkMaskedImage (Box2I_new (mkPoint2I 0 0) (mkExtent2I 64 64))
                (fun _ => 7)
                (fun p => if Point2I_eq_dec p (mkPoint2I 60 60) then 1 else 0)
                (fun _ => 2).

End Scenario.

(* ------------------------------------------------------------------ *)
(** * Properties *)

(** ** Geometry *)

Section GeometryFacts.

Lemma In_Zrange (lo z : Z) (n : nat) :
  In z (Zrange lo n) <-> lo <= z < lo + Z.of_nat n.
Proof.
  unfold Zrange. rewrite in_map_iff. split.
  - intros [i [<- Hi]]. apply in_seq in Hi. lia.
  - intros H. exists (Z.to_nat (z - lo)). split; [lia|].
    apply in_seq. lia.
Qed.

Lemma In_Box2I_pixels (b : Box2I) (p : Point2I) :
  In p (Box2I_pixels b) <-> containsPoint b p = true.
Proof.
  unfold Box2I_pixels, containsPoint, getMinX, getMinY, getMaxX, getMaxY.
  rewrite in_flat_map. split.
  - intros [y [Hy Hp]]. apply in_map_iff in Hp as [x [<- Hx]].
    apply In_Zrange in Hy, Hx. cbn [getX getY].
    rewrite !andb_true_iff, !Z.leb_le. lia.
  - rewrite !andb_true_iff, !Z.leb_le. intros H.
    exists (getY p). split.
    + apply In_Zrange. lia.
    + apply in_map_iff. exists (getX p). split.
      * destruct p; reflexivity.
      * apply In_Zrange. lia.
Qed.

Lemma Zmin_list_le (x v : Z) (l : list Z) :
  In v (x :: l) -> Zmin_list x l <= v.
Proof.
  unfold Zmin_list. induction l as [|a l IH]; cbn [fold_right].
  - intros [->|[]]. lia.
  - intros [->|[->|H]].
    + specialize (IH (or_introl eq_refl)). lia.
    + lia.
    + specialize (IH (or_intror H)). lia.
Qed.

Lemma Zmax_list_ge (x v : Z) (l : list Z) :
  In v (x :: l) -> v <= Zmax_list x l.
Proof.
  unfold Zmax_list. induction l as [|a l IH]; cbn [fold_right].
  - intros [->|[]]. lia.
  - intros [->|[->|H]].
    + specialize (IH (or_introl eq_refl)). lia.
    + lia.
    + specialize (IH (or_intror H)). lia.
Qed.

Lemma Zmin_list_glb (x lb : Z) (l : list Z) :
  (forall v, In v (x :: l) -> lb <= v) -> lb <= Zmin_list x l.
Proof.
  unfold Zmin_list. induction l as [|a l IH]; cbn [fold_right]; intros H.
  - apply H. now left.
  - apply Z.min_glb.
    + apply H. right. now left.
    + apply IH. intros v [->|Hv]; apply H; [now left | right; now right].
Qed.

Lemma Zmax_list_lub (x ub : Z) (l : list Z) :
  (forall v, In v (x :: l) -> v <= ub) -> Zmax_list x l <= ub.
Proof.
  unfold Zmax_list. induction l as [|a l IH]; cbn [fold_right]; intros H.
  - apply H. now left.
  - apply Z.max_lub.
    + apply H. right. now left.
    + apply IH. intros v [->|Hv]; apply H; [now left | right; now right].
Qed.

(** Every pixel of a region lies in the region's bounding box. *)
Lemma SpanSet_getBBox_containsPoint (s : SpanSet) (p : Point2I) :
  In p s -> containsPoint (SpanSet_getBBox s) p = true.
Proof.
  destruct s as [|q qs]; [intros []|]. intros Hp.
  assert (Hx : In (getX p) (getX q :: map getX qs)).
  { change (In (getX p) (map getX (q :: qs))). now apply in_map. }
  assert (Hy : In (getY p) (getY q :: map getY qs)).
  { change (In (getY p) (map getY (q :: qs))). now apply in_map. }
  pose proof (Zmin_list_le _ _ _ Hx). pose proof (Zmax_list_ge _ _ _ Hx).
  pose proof (Zmin_list_le _ _ _ Hy). pose proof (Zmax_list_ge _ _ _ Hy).
  unfold containsPoint, getMinX, getMinY, getMaxX, getMaxY. cbn.
  rewrite !andb_true_iff, !Z.leb_le. lia.
Qed.

(** The bounding box is the least box holding the region. *)
Lemma SpanSet_getBBox_least (s : SpanSet) (b : Box2I) :
  (forall p, In p s -> containsPoint b p = true) ->
  contains b (SpanSet_getBBox s) = true.
Proof.
  intros H. destruct s as [|q qs]; [reflexivity|].
  assert (Hx : forall v, In v (getX q :: map getX qs) ->
                         getMinX b <= v <= getMaxX b).
  { intros v Hv. change (In v (map getX (q :: qs))) in Hv.
    apply in_map_iff in Hv as [p [<- Hp]]. specialize (H p Hp).
    unfold containsPoint in H. rewrite !andb_true_iff, !Z.leb_le in H. lia. }
  assert (Hy : forall v, In v (getY q :: map getY qs) ->
                         getMinY b <= v <= getMaxY b).
  { intros v Hv. change (In v (map getY (q :: qs))) in Hv.
    apply in_map_iff in Hv as [p [<- Hp]]. specialize (H p Hp).
    unfold containsPoint in H. rewrite !andb_true_iff, !Z.leb_le in H. lia. }
  pose proof (Zmin_list_glb (getX q) (getMinX b) (map getX qs)
                            (fun v Hv => proj1 (Hx v Hv))).
  pose proof (Zmax_list_lub (getX q) (getMaxX b) (map getX qs)
                            (fun v Hv => proj2 (Hx v Hv))).
  pose proof (Zmin_list_glb (getY q) (getMinY b) (map getY qs)
                            (fun v Hv => proj1 (Hy v Hv))).
  pose proof (Zmax_list_lub (getY q) (getMaxY b) (map getY qs)
                            (fun v Hv => proj2 (Hy v Hv))).
  unfold contains. apply orb_true_iff. right.
  unfold getMinX, getMinY, getMaxX, getMaxY in *. cbn.
  rewrite !andb_true_iff, !Z.leb_le. lia.
Qed.

(** A larger region has a larger bounding box. *)
Lemma SpanSet_getBBox_incl (s t : SpanSet) :
  incl s t -> contains (SpanSet_getBBox t) (SpanSet_getBBox s) = true.
Proof.
  intros H. apply SpanSet_getBBox_least.
  intros p Hp. apply SpanSet_getBBox_containsPoint. now apply H.
Qed.

(** A box contained in another has all its pixels there. *)
Lemma contains_containsPoint (b c : Box2I) (p : Point2I) :
  contains b c = true -> containsPoint c p = true -> containsPoint b p = true.
Proof.
  unfold contains, containsPoint, isEmpty, getMinX, getMinY, getMaxX, getMaxY.
  rewrite !orb_true_iff, !andb_true_iff, !Z.leb_le. lia.
Qed.

(** For a non-negative radius every structuring element has the null
    offset. *)
Lemma stencil_offsets_origin (r : Z) (st : Stencil) :
  0 <= r -> In (mkPoint2I 0 0) (stencil_offsets r st).
Proof.
  intros Hr. unfold stencil_offsets. apply in_flat_map.
  exists 0. split; [apply In_Zrange; lia|].
  assert (Hdx : 0 <= stencil_halfwidth st r 0).
  { destruct st; cbn [stencil_halfwidth].
    - apply Z.sqrt_nonneg.
    - change (Z.abs 0) with 0. lia.
    - exact Hr. }
  apply in_map_iff. exists 0. split; [reflexivity|].
  apply In_Zrange. lia.
Qed.

(** Dilation by a non-negative radius keeps every pixel of the region. *)
Lemma SpanSet_dilated_incl (s : SpanSet) (r : Z) (st : Stencil) :
  0 <= r -> incl s (SpanSet_dilated s r st).
Proof.
  intros Hr p Hp. unfold SpanSet_dilated. apply in_flat_map.
  exists p. split; [exact Hp|].
  apply in_map_iff. exists (mkPoint2I 0 0). split.
  - cbn [getX getY]. rewrite !Z.add_0_r. destruct p; reflexivity.
  - now apply stencil_offsets_origin.
Qed.

End GeometryFacts.

(** C6.  Region growth is monotonic: for every region and every
    non-negative grow margin, the bounding box of the region dilated by that
    margin under the Manhattan stencil contains the region's own bounding
    box. *)
Theorem grown_bbox_contains_raw_bbox (fp : Footprint) (fpGrowPix : Z) :
  0 <= fpGrowPix ->
  contains
    (Footprint_getBBox
       (mkFootprint (SpanSet_dilated (getSpans fp) fpGrowPix MANHATTAN)))
    (Footprint_getBBox fp) = true.
Proof.
  intros Hr. unfold Footprint_getBBox. cbn [getSpans].
  apply SpanSet_getBBox_incl. now apply SpanSet_dilated_incl.
Qed.

Lemma grown_bbox_contains_raw_bbox_witness :
  0 <= 5 /\
  contains
    (Footprint_getBBox
       (mkFootprint (SpanSet_dilated (getSpans Scenario.source) 5 MANHATTAN)))
    (Footprint_getBBox Scenario.source) = true.
Proof.
  split; [lia | apply (grown_bbox_contains_raw_bbox Scenario.source 5); lia].
Defined.

(** ** Mask bits *)

Section MaskFacts.

Lemma land_lor_nonzero (a b m : Z) :
  Z.land (Z.lor a b) m <> 0 <-> Z.land a m <> 0 \/ Z.land b m <> 0.
Proof.
  rewrite Z.land_lor_distr_l, Z.lor_eq_0_iff.
  destruct (Z.eq_dec (Z.land a m) 0), (Z.eq_dec (Z.land b m) 0); tauto.
Qed.

(** The bits collected over a list of pixels meet [m] exactly when some
    pixel's bits do. *)
Lemma fold_lor_land_nonzero {A : Type} (f : A -> Z) (m : Z) (l : list A) :
  forall a,
    Z.land (fold_left (fun bits p => Z.lor bits (f p)) l a) m <> 0 <->
    Z.land a m <> 0 \/ exists p, In p l /\ Z.land (f p) m <> 0.
Proof.
  induction l as [|x l IH]; intros a; cbn [fold_left].
  - split; [now left | intros [H|[p [[] _]]]; exact H].
  - rewrite IH, land_lor_nonzero. split.
    + intros [[H|H]|[p [Hp H]]].
      * now left.
      * right. exists x. split; [now left | exact H].
      * right. exists p. split; [now right | exact H].
    + intros [H|[p [[->|Hp] H]]].
      * left. now left.
      * left. now right.
      * right. now exists p.
Qed.

Lemma FindSetBits_apply_meets (fsb : FindSetBits) (mask : Mask) (badBitMask : Z) :
  Z.land (getBits (FindSetBits_apply fsb mask)) badBitMask <> 0 <->
  exists p, containsPoint (Mask_getBBox mask) p = true /\
            Z.land (Mask_pixel mask p) badBitMask <> 0.
Proof.
  unfold FindSetBits_apply. cbn [getBits].
  rewrite fold_lor_land_nonzero. rewrite Z.land_0_l. split.
  - intros [H|[p [Hp H]]]; [congruence|].
    exists p. split; [now apply In_Box2I_pixels | exact H].
  - intros [p [Hp H]]. right. exists p.
    split; [now apply In_Box2I_pixels | exact H].
Qed.

Lemma fold_left_lor (l : list Z) (a : Z) :
  fold_left Z.lor l a = Z.lor a (fold_right Z.lor 0 l).
Proof.
  revert a. induction l as [|x l IH]; intros a; cbn [fold_left fold_right].
  - now rewrite Z.lor_0_r.
  - now rewrite IH, Z.lor_assoc.
Qed.

Lemma testbit_fold_lor (l : list Z) (i : Z) :
  Z.testbit (fold_right Z.lor 0 l) i = true <->
  exists m, In m l /\ Z.testbit m i = true.
Proof.
  induction l as [|x l IH]; cbn [fold_right].
  - rewrite Z.testbit_0_l. split; [discriminate | intros [m [[] _]]].
  - rewrite Z.lor_spec, orb_true_iff, IH. split.
    + intros [H|[m [Hm H]]].
      * exists x. split; [now left | exact H].
      * exists m. split; [now right | exact H].
    + intros [m [[->|Hm] H]]; [now left | right; now exists m].
Qed.

End MaskFacts.

(** ** The constructor *)

Section ConstructorFacts.

Variable maskPlaneDict : MaskPlaneDict.

Lemma In_recognizedBitMasks (planes : list string) (m : MaskPixel) :
  In m (recognizedBitMasks maskPlaneDict planes) <->
  exists name plane, In name planes /\
                     getMaskPlane maskPlaneDict name = Some plane /\
                     m = Z.shiftl 1 plane.
Proof.
  unfold recognizedBitMasks. rewrite in_flat_map. split.
  - intros [name [Hname Hm]].
    destruct (getMaskPlane maskPlaneDict name) as [plane|] eqn:E; [|destruct Hm].
    destruct Hm as [<-|[]]. now exists name, plane.
  - intros [name [plane [Hname [E ->]]]].
    exists name. split; [exact Hname|]. rewrite E. now left.
Qed.

(** A name the registry does not know adds nothing. *)
Lemma recognizedBitMasks_unknown (before after : list string) (name : string) :
  getMaskPlane maskPlaneDict name = None ->
  recognizedBitMasks maskPlaneDict (before ++ name :: after) =
  recognizedBitMasks maskPlaneDict (before ++ after).
Proof.
  intros E. unfold recognizedBitMasks.
  rewrite !flat_map_app. cbn [flat_map]. now rewrite E.
Qed.

(** The loop never lets an exception out and ORs in the known bits. *)
Lemma updateBadBitMask_recognized (planes : list string) :
  forall badBitMask,
    updateBadBitMask maskPlaneDict planes badBitMask =
    Ok (fold_left Z.lor (recognizedBitMasks maskPlaneDict planes) badBitMask).
Proof.
  induction planes as [|mi rest IH]; intros badBitMask.
  - reflexivity.
  - cbn [updateBadBitMask]. unfold getPlaneBitMask, recognizedBitMasks.
    cbn [flat_map]. fold (recognizedBitMasks maskPlaneDict rest).
    destruct (getMaskPlane maskPlaneDict mi) as [plane|];
      cbn [bind try_catch app]; rewrite IH; reflexivity.
Qed.

End ConstructorFacts.

(** C8.  Whatever plane names are configured, the constructor returns
    without an exception; the bad-bit mask it stores is the bitwise OR of the
    bit masks of exactly the names the registry knows, so that a bit is set in
    it if and only if a recognized configured name owns that bit, and an
    unknown name may be dropped from the list without changing the mask. *)
Theorem constructor_recovers_unknown_planes
    {double : Type} (maskPlaneDict : MaskPlaneDict) (policy : @Policy double) :
  exists self,
    new_KernelCandidateDetection maskPlaneDict policy = Ok self /\
    _policy self = policy /\
    _footprints self = [] /\
    _badBitMask self =
      fold_right Z.lor 0 (recognizedBitMasks maskPlaneDict (badMaskPlanes policy)) /\
    (forall i,
        Z.testbit (_badBitMask self) i = true <->
        exists name plane,
          In name (badMaskPlanes policy) /\
          getMaskPlane maskPlaneDict name = Some plane /\
          Z.testbit (Z.shiftl 1 plane) i = true) /\
    (forall before after name,
        badMaskPlanes policy = before ++ name :: after ->
        getMaskPlane maskPlaneDict name = None ->
        _badBitMask self =
          fold_right Z.lor 0 (recognizedBitMasks maskPlaneDict (before ++ after))).
Proof.
  unfold new_KernelCandidateDetection.
  rewrite updateBadBitMask_recognized. cbn [bind].
  eexists. split; [reflexivity|]. cbn [_policy _footprints _badBitMask].
  rewrite fold_left_lor, Z.lor_0_l.
  repeat split; try reflexivity.
  - rewrite testbit_fold_lor. intros [m [Hm Hbit]].
    apply In_recognizedBitMasks in Hm as [name [plane [Hname [E ->]]]].
    now exists name, plane.
  - rewrite testbit_fold_lor. intros [name [plane [Hname [E Hbit]]]].
    exists (Z.shiftl 1 plane). split; [|exact Hbit].
    apply In_recognizedBitMasks. now exists name, plane.
  - intros before after name -> E. now rewrite recognizedBitMasks_unknown.
Qed.

Lemma constructor_recovers_unknown_planes_witness :
  new_KernelCandidateDetection Scenario.planes Scenario.policy = Ok Scenario.detection /\
  getMaskPlane Scenario.planes "NO_SUCH_PLANE" = None /\
  _badBitMask Scenario.detection =
    fold_right Z.lor 0 (recognizedBitMasks Scenario.planes ["BAD"; "SAT"]%string).
Proof.
  destruct (constructor_recovers_unknown_planes Scenario.planes Scenario.policy)
    as [self [Hnew [_ [_ [_ [_ Hdrop]]]]]].
  assert (Hself : self = Scenario.detection).
  { vm_compute in Hnew. now inversion Hnew. }
  subst self. split; [reflexivity|]. split; [reflexivity|].
  apply (Hdrop ["BAD"%string] ["SAT"%string] "NO_SUCH_PLANE"%string); reflexivity.
Defined.

(** ** growCandidate *)

Section GrowCandidateFacts.

Context {PixelT double : Type}.
Implicit Types (fp : Footprint) (self : @KernelCandidateDetection double).
Implicit Types (templateMaskedImage scienceMaskedImage img : @MaskedImage PixelT).

Lemma set_footprints_same self : set_footprints self (_footprints self) = self.
Proof. now destruct self. Qed.

Lemma MaskedImage_subimage_throws img (bbox : Box2I) :
  throws (MaskedImage_subimage img bbox) = negb (contains (MaskedImage_getBBox img) bbox).
Proof.
  unfold MaskedImage_subimage.
  now destruct (contains (MaskedImage_getBBox img) bbox).
Qed.

(** The [try] block never lets an exception out, and reports a failure
    exactly for a failed extraction or a mask that meets the bad bits. *)
Lemma checkSubimages_contaminated (badBitMask : MaskPixel)
    templateMaskedImage scienceMaskedImage (fpGrowBBox : Box2I) :
  exists subimageHasFailed,
    checkSubimages badBitMask templateMaskedImage scienceMaskedImage fpGrowBBox
      = Ok subimageHasFailed /\
    (subimageHasFailed = true <->
     contaminated badBitMask templateMaskedImage scienceMaskedImage fpGrowBBox).
Proof.
  unfold contaminated, extractionFails, checkSubimages.
  rewrite !MaskedImage_subimage_throws. unfold MaskedImage_subimage.
  destruct (contains (MaskedImage_getBBox templateMaskedImage) fpGrowBBox);
    cbn [bind try_catch negb].
  2: { exists true. split; [reflexivity | tauto]. }
  destruct (contains (MaskedImage_getBBox scienceMaskedImage) fpGrowBBox);
    cbn [bind try_catch negb].
  2: { exists true. split; [reflexivity | tauto]. }
  eexists. split; [reflexivity|].
  pose proof (FindSetBits_apply_meets FindSetBits_new
                (getMask (mkMaskedImage fpGrowBBox
                            (MaskedImage_image templateMaskedImage)
                            (MaskedImage_mask templateMaskedImage)
                            (MaskedImage_variance templateMaskedImage)))
                badBitMask) as Ht.
  match goal with
  | |- context [FindSetBits_apply ?f (getMask (mkMaskedImage fpGrowBBox
                   (MaskedImage_image scienceMaskedImage) _ _))] =>
      pose proof (FindSetBits_apply_meets f
                (getMask (mkMaskedImage fpGrowBBox
                            (MaskedImage_image scienceMaskedImage)
                            (MaskedImage_mask scienceMaskedImage)
                            (MaskedImage_variance scienceMaskedImage)))
                badBitMask) as Hs
  end.
  cbn [getMask Mask_getBBox Mask_pixel MaskedImage_getBBox MaskedImage_mask] in Ht, Hs.
  fold (maskIntersects badBitMask templateMaskedImage fpGrowBBox) in Ht.
  fold (maskIntersects badBitMask scienceMaskedImage fpGrowBBox) in Hs.
  match type of Ht with
  | (?x <> 0 <-> _) => destruct (Z.eqb_spec x 0) as [Et|Et]
  end;
  match type of Hs with
  | (?x <> 0 <-> _) => destruct (Z.eqb_spec x 0) as [Es|Es]
  end; cbn [negb]; split; try reflexivity; try discriminate; intuition congruence.
Qed.

Lemma growCandidate_oversized (fuel : nat) fp (fpGrowPix : Z)
    templateMaskedImage scienceMaskedImage self :
  oversized self fp = true ->
  growCandidate (S fuel) fp fpGrowPix templateMaskedImage scienceMaskedImage self =
  growCandidate fuel (fpCore_of (Footprint_getBBox fp)) fpGrowPix
                templateMaskedImage scienceMaskedImage self.
Proof.
  unfold oversized. intros H. cbn [growCandidate]. now rewrite H.
Qed.

(** A footprint that is not oversized is settled by the call it is handed
    to. *)
Lemma growCandidate_one_call (fuel : nat) fp (fpGrowPix : Z)
    templateMaskedImage scienceMaskedImage self :
  oversized self fp = false ->
  growCandidate (S fuel) fp fpGrowPix templateMaskedImage scienceMaskedImage self =
  growCandidate 1 fp fpGrowPix templateMaskedImage scienceMaskedImage self.
Proof.
  unfold oversized. intros H. cbn [growCandidate]. now rewrite H.
Qed.

(** What the body does with a footprint that is not oversized: one call, no
    exception, and either the state as it was or the grown footprint pushed
    at the back. *)
Lemma growCandidate_direct (fuel : nat) fp (fpGrowPix : Z)
    templateMaskedImage scienceMaskedImage self :
  oversized self fp = false ->
  exists good : bool,
    growCandidate (S fuel) fp fpGrowPix templateMaskedImage scienceMaskedImage self =
      Some (Ok good, if good then push_back self (fpGrow_of fp fpGrowPix) else self) /\
    (good = false <->
     grownOffImage templateMaskedImage (Footprint_getBBox (fpGrow_of fp fpGrowPix)) \/
     contaminated (_badBitMask self) templateMaskedImage scienceMaskedImage
                  (Footprint_getBBox (fpGrow_of fp fpGrowPix))).
Proof.
  unfold oversized, grownOffImage. intros H.
  cbn [growCandidate]. rewrite H.
  fold (fpGrow_of fp fpGrowPix).
  set (fpGrow := fpGrow_of fp fpGrowPix).
  set (fpGrowBBox := Footprint_getBBox fpGrow).
  destruct (contains (MaskedImage_getBBox templateMaskedImage) fpGrowBBox) eqn:Hin;
    cbn [negb].
  2: { exists false. split; [reflexivity|]. split; [now left | reflexivity]. }
  destruct (checkSubimages_contaminated (_badBitMask self) templateMaskedImage
              scienceMaskedImage fpGrowBBox) as [failed [-> Hfailed]].
  destruct failed.
  - exists false. split; [reflexivity|]. split; [|reflexivity].
    intros _. right. now apply Hfailed.
  - exists true. split; [reflexivity|]. split; [discriminate|].
    intros [Hoff|Hc]; [discriminate|]. apply Hfailed in Hc. discriminate.
Qed.

Lemma int_wrap_in_range (n : Z) : INT_MIN <= n <= INT_MAX -> int_wrap n = n.
Proof.
  unfold INT_MIN, INT_MAX, int_wrap.
  assert (H31 : 2 ^ 31 = 2147483648) by reflexivity.
  assert (H32 : 2 ^ 32 = 4294967296) by reflexivity.
  rewrite H31, H32. intros H. rewrite Z.mod_small; lia.
Qed.

(** When the sum of the two corners fits in an [int] the result is the sum
    halved and truncated toward zero. *)
Lemma int_half_sum_in_range (a b : Z) :
  INT_MIN <= a + b <= INT_MAX -> int_half_sum a b = Z.quot (a + b) 2.
Proof.
  intros H. unfold int_half_sum. now rewrite int_wrap_in_range.
Qed.


(** Truncation is toward zero: never past the exact half on the far side. *)
Lemma quot_2_toward_zero (n : Z) : Z.abs (2 * Z.quot n 2) <= Z.abs n.
Proof.
  pose proof (Z.quot_rem' n 2) as E.
  destruct (Z_le_gt_dec 0 n) as [Hs|Hs].
  - pose proof (Z.rem_bound_pos n 2 Hs ltac:(lia)). lia.
  - pose proof (Z.rem_nonpos n 2 ltac:(lia) ltac:(lia)).
    pose proof (Z.rem_bound_abs n 2 ltac:(lia)) as B.
    change (Z.abs 2) with 2 in B. lia.
Qed.

Lemma fpCore_of_spans (fpBBox : Box2I) :
  getSpans (fpCore_of fpBBox) =
  [mkPoint2I (int_half_sum (getMinX fpBBox) (getMaxX fpBBox))
             (int_half_sum (getMinY fpBBox) (getMaxY fpBBox))].
Proof.
  unfold fpCore_of, SpanSet_of_box, Box2I_new, Box2I_pixels, Zrange, getMinX, getMinY.
  cbn. change (Pos.to_nat 1) with 1%nat. cbn. now rewrite !Z.add_0_r.
Qed.

Lemma fpCore_of_area (fpBBox : Box2I) : Footprint_getArea (fpCore_of fpBBox) = 1.
Proof.
  unfold Footprint_getArea. now rewrite fpCore_of_spans.
Qed.

Lemma static_cast_size_t_nonneg (n : Z) : 0 <= static_cast_size_t n.
Proof. unfold static_cast_size_t. apply Z.mod_pos_bound. reflexivity. Qed.

(** Unless [fpNpixMax] converts to zero, the core is not oversized. *)
Lemma fpCore_of_not_oversized self (fpBBox : Box2I) :
  static_cast_size_t (fpNpixMax (_policy self)) <> 0 ->
  oversized self (fpCore_of fpBBox) = false.
Proof.
  intros H. unfold oversized. rewrite fpCore_of_area.
  pose proof (static_cast_size_t_nonneg (fpNpixMax (_policy self))).
  rewrite Z.gtb_ltb. apply Z.ltb_ge. lia.
Qed.

End GrowCandidateFacts.

Section GrowCandidateClaims.

Context {PixelT double : Type}.
Implicit Types (fp : Footprint) (self : @KernelCandidateDetection double).
Implicit Types (templateMaskedImage scienceMaskedImage : @MaskedImage PixelT).

(** C3.  For every candidate (the footprint handed in, or the core that
    replaces an oversized one) whose grown bounding box lies inside the
    template image, [growCandidate] returns [false] if and only if extracting
    the sub-image of either image raises, or some pixel of the template's
    mask over the grown bounding box has a bad bit, or some pixel of the
    science image's mask there has one; a contaminated pixel in either image
    alone makes it return [false]. *)
Theorem growCandidate_rejects_iff_contaminated (fuel : nat) fp (fpGrowPix : Z)
    templateMaskedImage scienceMaskedImage self :
  oversized self (candidateRegion self fp) = false ->
  contains (MaskedImage_getBBox templateMaskedImage)
           (Footprint_getBBox (fpGrow_of (candidateRegion self fp) fpGrowPix)) = true ->
  exists (good : bool) self',
    growCandidate (S (S fuel)) fp fpGrowPix templateMaskedImage scienceMaskedImage self
      = Some (Ok good, self') /\
    (good = false <->
     extractionFails templateMaskedImage
       (Footprint_getBBox (fpGrow_of (candidateRegion self fp) fpGrowPix)) \/
     extractionFails scienceMaskedImage
       (Footprint_getBBox (fpGrow_of (candidateRegion self fp) fpGrowPix)) \/
     maskIntersects (_badBitMask self) templateMaskedImage
       (Footprint_getBBox (fpGrow_of (candidateRegion self fp) fpGrowPix)) \/
     maskIntersects (_badBitMask self) scienceMaskedImage
       (Footprint_getBBox (fpGrow_of (candidateRegion self fp) fpGrowPix))) /\
    (maskIntersects (_badBitMask self) templateMaskedImage
       (Footprint_getBBox (fpGrow_of (candidateRegion self fp) fpGrowPix)) ->
     good = false) /\
    (maskIntersects (_badBitMask self) scienceMaskedImage
       (Footprint_getBBox (fpGrow_of (candidateRegion self fp) fpGrowPix)) ->
     good = false).
Proof.
  intros Hsize Hin.
  assert (Hcall : growCandidate (S (S fuel)) fp fpGrowPix templateMaskedImage
                                scienceMaskedImage self =
                  growCandidate 1 (candidateRegion self fp) fpGrowPix
                                templateMaskedImage scienceMaskedImage self).
  { unfold candidateRegion in *. destruct (oversized self fp) eqn:Hfp.
    - rewrite growCandidate_oversized by exact Hfp.
      now apply growCandidate_one_call.
    - now apply growCandidate_one_call. }
  set (region := candidateRegion self fp) in *.
  destruct (growCandidate_direct 0 region fpGrowPix templateMaskedImage
              scienceMaskedImage self Hsize) as [good [Hrun Hgood]].
  exists good. eexists. split; [rewrite Hcall; exact Hrun|].
  unfold grownOffImage, contaminated in Hgood.
  assert (Hiff : good = false <->
     extractionFails templateMaskedImage (Footprint_getBBox (fpGrow_of region fpGrowPix)) \/
     extractionFails scienceMaskedImage (Footprint_getBBox (fpGrow_of region fpGrowPix)) \/
     maskIntersects (_badBitMask self) templateMaskedImage
                    (Footprint_getBBox (fpGrow_of region fpGrowPix)) \/
     maskIntersects (_badBitMask self) scienceMaskedImage
                    (Footprint_getBBox (fpGrow_of region fpGrowPix))).
  { rewrite Hgood. split.
    - intros [Hoff|Hc]; [congruence | exact Hc].
    - intros Hc. now right. }
  split; [exact Hiff|]. split; intros Hbad; apply Hiff; tauto.
Qed.

(** C4.  For a footprint that is not oversized, [growCandidate] returns
    [false] without an exception, and leaves the object as it was, whenever
    the grown footprint's bounding box is not contained in the template
    image's; nothing the contamination check reads (the masks, the science
    image, the bad-bit mask) has a say in it. *)
Theorem growCandidate_rejects_grown_off_image (fuel : nat) fp (fpGrowPix : Z)
    templateMaskedImage scienceMaskedImage self :
  oversized self fp = false ->
  contains (MaskedImage_getBBox templateMaskedImage)
           (Footprint_getBBox (fpGrow_of fp fpGrowPix)) = false ->
  growCandidate (S fuel) fp fpGrowPix templateMaskedImage scienceMaskedImage self
    = Some (Ok false, self) /\
  (forall templateMaskedImage' scienceMaskedImage' (badBitMask' : MaskPixel),
      MaskedImage_getBBox templateMaskedImage' = MaskedImage_getBBox templateMaskedImage ->
      growCandidate (S fuel) fp fpGrowPix templateMaskedImage' scienceMaskedImage'
                    (mkKernelCandidateDetection (_policy self) badBitMask' (_footprints self))
        = Some (Ok false,
                mkKernelCandidateDetection (_policy self) badBitMask' (_footprints self))).
Proof.
  intros Hsize Hoff.
  assert (Hgen : forall (t s : @MaskedImage PixelT) (self0 : @KernelCandidateDetection double),
             oversized self0 fp = false ->
             contains (MaskedImage_getBBox t)
                      (Footprint_getBBox (fpGrow_of fp fpGrowPix)) = false ->
             growCandidate (S fuel) fp fpGrowPix t s self0 = Some (Ok false, self0)).
  { intros t s self0 Hs Ho.
    destruct (growCandidate_direct fuel fp fpGrowPix t s self0 Hs) as [good [Hrun Hgood]].
    assert (good = false) as -> by (apply Hgood; left; exact Ho).
    exact Hrun. }
  split; [now apply Hgen|].
  intros t' s' bad' Hbox. apply Hgen; [exact Hsize | now rewrite Hbox].
Qed.


(** C10.  Frame property of [growCandidate] on a footprint that is not
    oversized: if the grown footprint leaves the template image, an
    extraction raises or a mask is contaminated, the call returns [false] and
    the object, candidate list included, is unchanged; otherwise it returns
    [true] and the only change is the grown footprint appended at the end of
    the candidate list. *)
Theorem growCandidate_frame (fuel : nat) fp (fpGrowPix : Z)
    templateMaskedImage scienceMaskedImage self :
  oversized self fp = false ->
  ((grownOffImage templateMaskedImage (Footprint_getBBox (fpGrow_of fp fpGrowPix)) \/
    contaminated (_badBitMask self) templateMaskedImage scienceMaskedImage
                 (Footprint_getBBox (fpGrow_of fp fpGrowPix))) ->
   growCandidate (S fuel) fp fpGrowPix templateMaskedImage scienceMaskedImage self
     = Some (Ok false, self)) /\
  (~ (grownOffImage templateMaskedImage (Footprint_getBBox (fpGrow_of fp fpGrowPix)) \/
      contaminated (_badBitMask self) templateMaskedImage scienceMaskedImage
                   (Footprint_getBBox (fpGrow_of fp fpGrowPix))) ->
   growCandidate (S fuel) fp fpGrowPix templateMaskedImage scienceMaskedImage self
     = Some (Ok true,
             mkKernelCandidateDetection (_policy self) (_badBitMask self)
               (_footprints self ++ [fpGrow_of fp fpGrowPix]))) /\
  (exists (good : bool) self',
      growCandidate (S fuel) fp fpGrowPix templateMaskedImage scienceMaskedImage self
        = Some (Ok good, self') /\
      _policy self' = _policy self /\
      _badBitMask self' = _badBitMask self /\
      _footprints self' =
        if good then _footprints self ++ [fpGrow_of fp fpGrowPix] else _footprints self).
Proof.
  intros Hsize.
  destruct (growCandidate_direct fuel fp fpGrowPix templateMaskedImage
              scienceMaskedImage self Hsize) as [good [Hrun Hgood]].
  repeat split.
  - intros Hrej. apply Hgood in Hrej. now subst good.
  - intros Hok. destruct good; [exact Hrun|]. exfalso. now apply Hok, Hgood.
  - exists good. eexists. split; [exact Hrun|]. now destruct good.
Qed.

End GrowCandidateClaims.

(** ** The loop over the detected footprints *)

Section LoopFacts.

Context {PixelT double : Type}.
Implicit Types (fp : Footprint) (self : @KernelCandidateDetection double).
Implicit Types (templateMaskedImage scienceMaskedImage : @MaskedImage PixelT).

(** Whatever the depth, a call that completes returns a boolean, and either
    leaves the object alone or has pushed one clean grown footprint. *)
Lemma growCandidate_outcome (fuel : nat) (fpGrowPix : Z)
    templateMaskedImage scienceMaskedImage self :
  forall fp r self',
    growCandidate fuel fp fpGrowPix templateMaskedImage scienceMaskedImage self
      = Some (r, self') ->
    (r = Ok false /\ self' = self) \/
    (r = Ok true /\
     exists g, self' = push_back self g /\
               cleanCandidate (_badBitMask self) fpGrowPix
                              templateMaskedImage scienceMaskedImage g).
Proof.
  induction fuel as [|fuel IH]; intros fp r self' Hrun; [discriminate|].
  destruct (oversized self fp) eqn:Hsize.
  - rewrite growCandidate_oversized in Hrun by exact Hsize. now apply IH in Hrun.
  - destruct (growCandidate_direct fuel fp fpGrowPix templateMaskedImage
                scienceMaskedImage self Hsize) as [good [Hrun' Hgood]].
    rewrite Hrun' in Hrun. inversion Hrun; subst r self'; clear Hrun.
    destruct good; [right | now left].
    split; [reflexivity|]. exists (fpGrow_of fp fpGrowPix). split; [reflexivity|].
    assert (Hok : ~ (grownOffImage templateMaskedImage
                       (Footprint_getBBox (fpGrow_of fp fpGrowPix)) \/
                     contaminated (_badBitMask self) templateMaskedImage
                       scienceMaskedImage
                       (Footprint_getBBox (fpGrow_of fp fpGrowPix)))).
    { intros H. apply Hgood in H. discriminate. }
    unfold grownOffImage, contaminated, extractionFails in Hok.
    rewrite !MaskedImage_subimage_throws in Hok.
    unfold cleanCandidate.
    split; [now exists fp|].
    destruct (contains (MaskedImage_getBBox templateMaskedImage)
                (Footprint_getBBox (fpGrow_of fp fpGrowPix))); [|tauto].
    destruct (contains (MaskedImage_getBBox scienceMaskedImage)
                (Footprint_getBBox (fpGrow_of fp fpGrowPix))); cbn [negb] in Hok; tauto.
Qed.

(** The boolean does not depend on the candidates collected so far. *)
Lemma growCandidate_result_indep (fuel : nat) (fpGrowPix : Z)
    templateMaskedImage scienceMaskedImage self (l : list Footprint) :
  forall fp,
    option_map fst (growCandidate fuel fp fpGrowPix templateMaskedImage
                                  scienceMaskedImage (set_footprints self l)) =
    option_map fst (growCandidate fuel fp fpGrowPix templateMaskedImage
                                  scienceMaskedImage self).
Proof.
  induction fuel as [|fuel IH]; intros fp; [reflexivity|].
  cbn [growCandidate set_footprints _policy _badBitMask].
  destruct (Footprint_getArea fp >? static_cast_size_t (fpNpixMax (_policy self)));
    [apply IH|].
  destruct (negb _); [reflexivity|].
  destruct (checkSubimages _ _ _ _) as [[|]|e]; reflexivity.
Qed.

Lemma accepts_set_footprints (fuel : nat) fp (fpGrowPix : Z)
    templateMaskedImage scienceMaskedImage self (l : list Footprint) :
  accepts fuel fp fpGrowPix templateMaskedImage scienceMaskedImage (set_footprints self l) =
  accepts fuel fp fpGrowPix templateMaskedImage scienceMaskedImage self.
Proof.
  unfold accepts.
  pose proof (growCandidate_result_indep fuel fpGrowPix templateMaskedImage
                scienceMaskedImage self l fp) as H.
  destruct (growCandidate fuel fp fpGrowPix templateMaskedImage scienceMaskedImage
              (set_footprints self l)) as [[r1 s1]|],
           (growCandidate fuel fp fpGrowPix templateMaskedImage scienceMaskedImage self)
    as [[r2 s2]|]; cbn [option_map fst] in H; try discriminate; [|reflexivity].
  inversion H; subst. reflexivity.
Qed.

Lemma filter_nil_iff {A : Type} (f : A -> bool) (l : list A) :
  filter f l = [] <-> forall x, In x l -> f x = false.
Proof.
  induction l as [|a l IH]; cbn [filter].
  - split; [intros _ x [] | reflexivity].
  - destruct (f a) eqn:Ea.
    + split; [discriminate|]. intros H. specialize (H a (or_introl eq_refl)). congruence.
    + rewrite IH. split.
      * intros H x [<-|Hx]; [exact Ea | now apply H].
      * intros H x Hx. apply H. now right.
Qed.

Lemma filter_not_nil_iff {A : Type} (f : A -> bool) (l : list A) :
  filter f l <> [] <-> exists x, In x l /\ f x = true.
Proof.
  split.
  - intros H. destruct (filter f l) as [|x rest] eqn:E; [now elim H|].
    exists x. apply filter_In. rewrite E. now left.
  - intros [x Hx] E. apply filter_In in Hx. rewrite E in Hx. destruct Hx.
Qed.

(** The loop: it ends without an exception, touches only the candidate list,
    adds one candidate per accepted footprint and keeps the list clean. *)
Lemma growCandidates_spec (fuel : nat) (fpGrowPix : Z)
    templateMaskedImage scienceMaskedImage (footprintList : list Footprint) :
  forall self out self',
    growCandidates fuel footprintList fpGrowPix templateMaskedImage
                   scienceMaskedImage self = Some (out, self') ->
    out = Ok tt /\
    _policy self' = _policy self /\
    _badBitMask self' = _badBitMask self /\
    List.length (_footprints self') =
      (List.length (_footprints self) +
       List.length (filter (fun fp => accepts fuel fp fpGrowPix templateMaskedImage
                                              scienceMaskedImage self)
                           footprintList))%nat /\
    (Forall (cleanCandidate (_badBitMask self) fpGrowPix
                            templateMaskedImage scienceMaskedImage) (_footprints self) ->
     Forall (cleanCandidate (_badBitMask self) fpGrowPix
                            templateMaskedImage scienceMaskedImage) (_footprints self')).
Proof.
  induction footprintList as [|i rest IH]; intros self out self' Hrun.
  - cbn [growCandidates] in Hrun. inversion Hrun; subst.
    cbn [filter List.length]. rewrite Nat.add_0_r. now repeat split.
  - cbn [growCandidates] in Hrun.
    destruct (growCandidate fuel i fpGrowPix templateMaskedImage scienceMaskedImage self)
      as [[r self1]|] eqn:Hi; [|discriminate].
    assert (Hacc : accepts fuel i fpGrowPix templateMaskedImage scienceMaskedImage self =
                   match r with Ok true => true | _ => false end).
    { unfold accepts. now rewrite Hi. }
    apply growCandidate_outcome in Hi as [[-> ->]|[-> [g [-> Hclean]]]].
    + apply IH in Hrun as [Hout [Hpol [Hbad [Hlen Hall]]]].
      cbn [filter]. rewrite Hacc. now repeat split.
    + apply IH in Hrun as [Hout [Hpol [Hbad [Hlen Hall]]]].
      cbn [push_back set_footprints _policy _badBitMask _footprints] in Hpol, Hbad, Hlen, Hall.
      cbn [filter]. rewrite Hacc.
      split; [exact Hout|]. split; [exact Hpol|]. split; [exact Hbad|]. split.
      * rewrite Hlen, length_app. cbn [List.length].
        rewrite (filter_ext _ (fun fp => accepts fuel fp fpGrowPix templateMaskedImage
                                                 scienceMaskedImage self)).
        -- lia.
        -- intros fp. unfold push_back. apply accepts_set_footprints.
      * intros Hself. apply Hall. apply Forall_app. split; [exact Hself|].
        now constructor.
Qed.

(** Unless [fpNpixMax] converts to zero, two nested calls always complete. *)
Lemma growCandidate_total (fuel : nat) fp (fpGrowPix : Z)
    templateMaskedImage scienceMaskedImage self :
  static_cast_size_t (fpNpixMax (_policy self)) <> 0 ->
  exists r self',
    growCandidate (S (S fuel)) fp fpGrowPix templateMaskedImage scienceMaskedImage self
      = Some (r, self').
Proof.
  intros Hmax. destruct (oversized self fp) eqn:Hsize.
  - rewrite growCandidate_oversized by exact Hsize.
    destruct (growCandidate_direct fuel (fpCore_of (Footprint_getBBox fp)) fpGrowPix
                templateMaskedImage scienceMaskedImage self
                (fpCore_of_not_oversized self _ Hmax))
      as [good [Hrun _]].
    rewrite Hrun. eauto.
  - destruct (growCandidate_direct (S fuel) fp fpGrowPix templateMaskedImage
                scienceMaskedImage self Hsize) as [good [Hrun _]].
    rewrite Hrun. eauto.
Qed.

Lemma growCandidates_total (fuel : nat) (fpGrowPix : Z)
    templateMaskedImage scienceMaskedImage (footprintList : list Footprint) :
  forall self,
    static_cast_size_t (fpNpixMax (_policy self)) <> 0 ->
    exists out self',
      growCandidates (S (S fuel)) footprintList fpGrowPix templateMaskedImage
                     scienceMaskedImage self = Some (out, self').
Proof.
  induction footprintList as [|i rest IH]; intros self Hmax.
  - cbn [growCandidates]. eauto.
  - cbn [growCandidates].
    destruct (growCandidate_total fuel i fpGrowPix templateMaskedImage
                scienceMaskedImage self Hmax) as [r [self1 Hi]].
    rewrite Hi.
    apply growCandidate_outcome in Hi as [[-> ->]|[-> [g [-> _]]]].
    + now apply IH.
    + now apply IH.
Qed.

End LoopFacts.

(** ** apply *)

Section ApplyFacts.

Context {PixelT double Threshold : Type}.
Variable createThreshold : double -> string -> Threshold.
Variable FootprintSet_getFootprints :
  @MaskedImage PixelT -> Threshold -> string -> Z -> list Footprint.
Implicit Types (self : @KernelCandidateDetection double).
Implicit Types (templateMaskedImage scienceMaskedImage : @MaskedImage PixelT).

Lemma apply_total (fuel : nat) templateMaskedImage scienceMaskedImage self :
  static_cast_size_t (fpNpixMax (_policy self)) <> 0 ->
  exists out self',
    apply createThreshold FootprintSet_getFootprints (S (S fuel))
          templateMaskedImage scienceMaskedImage self = Some (out, self').
Proof.
  intros Hmax. unfold apply.
  destruct (growCandidates_total fuel (fpGrowPix (_policy self)) templateMaskedImage
              scienceMaskedImage
              (detectedFootprints createThreshold FootprintSet_getFootprints
                 (_policy (set_footprints self [])) templateMaskedImage scienceMaskedImage)
              (set_footprints self []) Hmax) as [out [self1 Hrun]].
  rewrite Hrun.
  destruct out as [u|e]; [|eauto].
  destruct (Z.of_nat (List.length (_footprints self1)) =? 0); eauto.
Qed.

End ApplyFacts.

Section ApplyClaims.

Context {PixelT double Threshold : Type}.
Variable createThreshold : double -> string -> Threshold.
Variable FootprintSet_getFootprints :
  @MaskedImage PixelT -> Threshold -> string -> Z -> list Footprint.
Implicit Types (self : @KernelCandidateDetection double).
Implicit Types (templateMaskedImage scienceMaskedImage : @MaskedImage PixelT).

(** C2.  Whatever the images and the configuration, a pass of [apply] that
    completes raises to its caller if and only if [growCandidate] accepted
    none of the detected footprints, and returns normally if and only if it
    accepted at least one; the candidate list then holds one entry per
    accepted footprint, whatever it held before.  A pass completes (two
    nested calls of [growCandidate] are enough) as soon as [fpNpixMax] does
    not convert to zero. *)
Theorem apply_raises_iff_no_candidate_accepted (fuel : nat)
    templateMaskedImage scienceMaskedImage self :
  (static_cast_size_t (fpNpixMax (_policy self)) <> 0 ->
   exists out self',
     apply createThreshold FootprintSet_getFootprints (S (S fuel))
           templateMaskedImage scienceMaskedImage self = Some (out, self')) /\
  (forall out self',
      apply createThreshold FootprintSet_getFootprints fuel
            templateMaskedImage scienceMaskedImage self = Some (out, self') ->
      List.length (_footprints self') =
        List.length
          (filter (fun fp => accepts fuel fp (fpGrowPix (_policy self))
                                     templateMaskedImage scienceMaskedImage self)
                  (detectedFootprints createThreshold FootprintSet_getFootprints
                     (_policy self) templateMaskedImage scienceMaskedImage)) /\
      (throws out = true <->
       forall fp,
         In fp (detectedFootprints createThreshold FootprintSet_getFootprints
                  (_policy self) templateMaskedImage scienceMaskedImage) ->
         accepts fuel fp (fpGrowPix (_policy self))
                 templateMaskedImage scienceMaskedImage self = false) /\
      (out = Ok tt <->
       exists fp,
         In fp (detectedFootprints createThreshold FootprintSet_getFootprints
                  (_policy self) templateMaskedImage scienceMaskedImage) /\
         accepts fuel fp (fpGrowPix (_policy self))
                 templateMaskedImage scienceMaskedImage self = true)).
Proof.
  split; [apply apply_total|].
  intros out self'. unfold apply.
  destruct (growCandidates fuel _ _ _ _ _) as [[r self1]|] eqn:Hloop; [|discriminate].
  apply growCandidates_spec in Hloop as [-> [_ [_ [Hlen _]]]].
  cbn [set_footprints _footprints _policy List.length Nat.add] in Hlen.
  rewrite (filter_ext _ (fun fp => accepts fuel fp (fpGrowPix (_policy self))
                                     templateMaskedImage scienceMaskedImage self)) in Hlen
    by (intros fp; apply accepts_set_footprints).
  set (detected := detectedFootprints createThreshold FootprintSet_getFootprints
                     (_policy self) templateMaskedImage scienceMaskedImage) in *.
  set (accepted := fun fp => accepts fuel fp (fpGrowPix (_policy self))
                               templateMaskedImage scienceMaskedImage self) in *.
  destruct (Z.eqb_spec (Z.of_nat (List.length (_footprints self1))) 0) as [E|E];
    intros Hout; inversion Hout; subst out self'; clear Hout;
    (split; [exact Hlen|]); cbn [throws].
  - assert (Hnone : filter accepted detected = []) by (apply length_zero_iff_nil; lia).
    pose proof (proj1 (filter_nil_iff accepted detected) Hnone) as Hrej.
    clear Hnone. rename Hrej into Hnone.
    split; split; try reflexivity; try discriminate.
    + intros _. exact Hnone.
    + intros [fp [Hin Hacc]]. specialize (Hnone fp Hin).
      unfold accepted in Hnone. congruence.
  - assert (Hsome : filter accepted detected <> []).
    { intros H. rewrite H in Hlen. cbn [List.length] in Hlen. lia. }
    pose proof (proj1 (filter_not_nil_iff accepted detected) Hsome) as Hacc.
    clear Hsome. rename Hacc into Hsome.
    split; split; try reflexivity; try discriminate.
    + intros Hnone. destruct Hsome as [fp [Hin Hacc]].
      specialize (Hnone fp Hin). unfold accepted in Hacc. congruence.
    + intros _. exact Hsome.
Qed.

(** C7.  After a pass of [apply], every member of the candidate list is a
    grown footprint whose bounding box lies inside both the template and the
    science image, and over that bounding box neither image's mask meets the
    bad-bit mask; the pass does not change the bad-bit mask, and it completes
    as soon as [fpNpixMax] does not convert to zero. *)
Theorem candidate_list_invariant (fuel : nat)
    templateMaskedImage scienceMaskedImage self :
  (static_cast_size_t (fpNpixMax (_policy self)) <> 0 ->
   exists out self',
     apply createThreshold FootprintSet_getFootprints (S (S fuel))
           templateMaskedImage scienceMaskedImage self = Some (out, self')) /\
  (forall out self',
      apply createThreshold FootprintSet_getFootprints fuel
            templateMaskedImage scienceMaskedImage self = Some (out, self') ->
      _badBitMask self' = _badBitMask self /\
      Forall (cleanCandidate (_badBitMask self) (fpGrowPix (_policy self))
                             templateMaskedImage scienceMaskedImage)
             (_footprints self')).
Proof.
  split; [apply apply_total|].
  intros out self'. unfold apply.
  destruct (growCandidates fuel _ _ _ _ _) as [[r self1]|] eqn:Hloop; [|discriminate].
  apply growCandidates_spec in Hloop as [-> [_ [Hbad [_ Hall]]]].
  cbn [set_footprints _footprints _badBitMask] in Hbad, Hall.
  specialize (Hall (Forall_nil _)).
  destruct (Z.of_nat (List.length (_footprints self1)) =? 0);
    intros Hout; inversion Hout; subst out self'; now split.
Qed.

End ApplyClaims.

(** ** The scenarios, run *)

Lemma apply_raises_iff_no_candidate_accepted_witness :
  static_cast_size_t (fpNpixMax (_policy Scenario.detection)) <> 0 /\
  exists self',
    apply Scenario.threshold Scenario.detector 2
          Scenario.cleanImage Scenario.flaggedImage Scenario.detection
      = Some (Throw (BaseException "Unable to find any footprints for Psf matching"),
              self') /\
    forall fp,
      In fp (detectedFootprints Scenario.threshold Scenario.detector
               (_policy Scenario.detection) Scenario.cleanImage Scenario.flaggedImage) ->
      accepts 2 fp (fpGrowPix (_policy Scenario.detection))
              Scenario.cleanImage Scenario.flaggedImage Scenario.detection = false.
Proof.
  assert (Hmax : static_cast_size_t (fpNpixMax (_policy Scenario.detection)) <> 0)
    by (vm_compute; discriminate).
  split; [exact Hmax|].
  destruct (proj1 (apply_raises_iff_no_candidate_accepted
                     Scenario.threshold Scenario.detector 0
                     Scenario.cleanImage Scenario.flaggedImage Scenario.detection) Hmax)
    as [out [self' Hrun]].
  exists self'.
  destruct (proj2 (apply_raises_iff_no_candidate_accepted
                     Scenario.threshold Scenario.detector 2
                     Scenario.cleanImage Scenario.flaggedImage Scenario.detection)
                  out self' Hrun) as [_ [Hraise _]].
  assert (Hout : out = Throw (BaseException "Unable to find any footprints for Psf matching")).
  { vm_compute in Hrun. now inversion Hrun. }
  subst out. split; [exact Hrun|]. now apply Hraise.
Defined.

Lemma growCandidate_rejects_iff_contaminated_witness :
  oversized Scenario.detection
            (candidateRegion Scenario.detection Scenario.source) = false /\
  contains (MaskedImage_getBBox Scenario.cleanImage)
           (Footprint_getBBox
              (fpGrow_of (candidateRegion Scenario.detection Scenario.source) 5)) = true /\
  exists (good : bool) self',
    growCandidate 2 Scenario.source 5 Scenario.cleanImage Scenario.flaggedImage
                  Scenario.detection = Some (Ok good, self') /\
    (maskIntersects (_badBitMask Scenario.detection) Scenario.flaggedImage
       (Footprint_getBBox
          (fpGrow_of (candidateRegion Scenario.detection Scenario.source) 5)) ->
     good = false).
Proof.
  assert (Hsize : oversized Scenario.detection
                    (candidateRegion Scenario.detection Scenario.source) = false)
    by (vm_compute; reflexivity).
  assert (Hin : contains (MaskedImage_getBBox Scenario.cleanImage)
                  (Footprint_getBBox
                     (fpGrow_of (candidateRegion Scenario.detection Scenario.source) 5))
                = true)
    by (vm_compute; reflexivity).
  split; [exact Hsize|]. split; [exact Hin|].
  destruct (growCandidate_rejects_iff_contaminated 0 Scenario.source 5
              Scenario.cleanImage Scenario.flaggedImage Scenario.detection Hsize Hin)
    as [good [self' [Hrun [_ [_ Hsci]]]]].
  exists good, self'. split; [exact Hrun | exact Hsci].
Defined.

Lemma growCandidate_rejects_grown_off_image_witness :
  oversized Scenario.detection Scenario.cornerSource = false /\
  contains (MaskedImage_getBBox Scenario.cleanImage)
           (Footprint_getBBox (fpGrow_of Scenario.cornerSource 5)) = false /\
  growCandidate 1 Scenario.cornerSource 5 Scenario.cleanImage Scenario.flaggedImage
                Scenario.detection = Some (Ok false, Scenario.detection).
Proof.
  assert (Hsize : oversized Scenario.detection Scenario.cornerSource = false)
    by (vm_compute; reflexivity).
  assert (Hoff : contains (MaskedImage_getBBox Scenario.cleanImage)
                          (Footprint_getBBox (fpGrow_of Scenario.cornerSource 5)) = false)
    by (vm_compute; reflexivity).
  split; [exact Hsize|]. split; [exact Hoff|].
  exact (proj1 (growCandidate_rejects_grown_off_image 0 Scenario.cornerSource 5
                  Scenario.cleanImage Scenario.flaggedImage Scenario.detection
                  Hsize Hoff)).
Defined.



Lemma candidate_list_invariant_witness :
  static_cast_size_t (fpNpixMax (_policy Scenario.detection)) <> 0 /\
  exists self',
    apply Scenario.threshold Scenario.detector 2
          Scenario.cleanImage Scenario.cleanImage Scenario.detection
      = Some (Ok tt, self') /\
    Forall (cleanCandidate (_badBitMask Scenario.detection)
                           (fpGrowPix (_policy Scenario.detection))
                           Scenario.cleanImage Scenario.cleanImage)
           (_footprints self').
Proof.
  assert (Hmax : static_cast_size_t (fpNpixMax (_policy Scenario.detection)) <> 0)
    by (vm_compute; discriminate).
  split; [exact Hmax|].
  destruct (proj1 (candidate_list_invariant
                     Scenario.threshold Scenario.detector 0
                     Scenario.cleanImage Scenario.cleanImage Scenario.detection) Hmax)
    as [out [self' Hrun]].
  exists self'.
  destruct (proj2 (candidate_list_invariant
                     Scenario.threshold Scenario.detector 2
                     Scenario.cleanImage Scenario.cleanImage Scenario.detection)
                  out self' Hrun) as [_ Hall].
  assert (Hout : out = Ok tt).
  { vm_compute in Hrun. now inversion Hrun. }
  subst out. split; [exact Hrun | exact Hall].
Defined.

Lemma growCandidate_frame_witness :
  oversized Scenario.detection Scenario.source = false /\
  exists (good : bool) self',
    growCandidate 1 Scenario.source 5 Scenario.cleanImage Scenario.cleanImage
                  Scenario.detection = Some (Ok good, self') /\
    _policy self' = _policy Scenario.detection /\
    _badBitMask self' = _badBitMask Scenario.detection /\
    _footprints self' =
      if good then _footprints Scenario.detection ++ [fpGrow_of Scenario.source 5]
      else _footprints Scenario.detection.
Proof.
  assert (Hsize : oversized Scenario.detection Scenario.source = false)
    by (vm_compute; reflexivity).
  split; [exact Hsize|].
  exact (proj2 (proj2 (growCandidate_frame 0 Scenario.source 5
                         Scenario.cleanImage Scenario.cleanImage Scenario.detection
                         Hsize))).
Defined.

(** ** The regularization builder's defaults *)

(** C1, as the specification states it, fails: a call that gives no boundary
    style does not get [TAPERED]. *)
Lemma default_boundaryStyle_is_not_TAPERED :
  BasisSets.boundaryStyle_applied BasisSets.NoStyle <> BasisSets.TAPERED /\
  BasisSets.generateFiniteDifferenceRegularization
    (fun _ _ _ boundaryStyle _ => boundaryStyle) 3 3 1 BasisSets.NoStyle
  <> BasisSets.TAPERED.
Proof. split; discriminate. Qed.

(** C1, amended.  When [generateFiniteDifferenceRegularization] is called
    without an explicit boundary style, the boundary handling applied is
    [WRAPPED] (and the difference style is forward); a style that is written
    out is the one applied. *)
Theorem default_boundaryStyle_is_WRAPPED
    {MatrixXd : Type}
    (body : N -> N -> N -> BasisSets.BoundStyle -> BasisSets.DiffStyle -> MatrixXd)
    (width height order : N) :
  BasisSets.boundaryStyle_applied BasisSets.NoStyle = BasisSets.WRAPPED /\
  BasisSets.generateFiniteDifferenceRegularization body width height order
    BasisSets.NoStyle
  = body width height order BasisSets.WRAPPED BasisSets.FORWARD_DIFFERENCE /\
  (forall boundaryStyle,
      BasisSets.generateFiniteDifferenceRegularization body width height order
        (BasisSets.WithBoundary boundaryStyle)
      = body width height order boundaryStyle BasisSets.FORWARD_DIFFERENCE) /\
  (forall boundaryStyle differenceStyle,
      BasisSets.generateFiniteDifferenceRegularization body width height order
        (BasisSets.WithBoth boundaryStyle differenceStyle)
      = body width height order boundaryStyle differenceStyle).
Proof. repeat split. Qed.

(* ------------------------------------------------------------------ *)
(** * Further properties of the detection pass *)

(** ** When the oversize recursion ends *)

Section RecursionFacts.

Context {PixelT double : Type}.
Implicit Types (fp : Footprint) (self : @KernelCandidateDetection double).
Implicit Types (templateMaskedImage scienceMaskedImage : @MaskedImage PixelT).

Lemma SpanSet_getArea_pos (s : SpanSet) : s <> [] -> 1 <= SpanSet_getArea s.
Proof.
  unfold SpanSet_getArea. destruct s as [|p ps]; [congruence|]. intros _.
  assert (Hin : In p (nodup Point2I_eq_dec (p :: ps))) by (apply nodup_In; now left).
  destruct (nodup Point2I_eq_dec (p :: ps)); [destruct Hin|].
  cbn [List.length]. lia.
Qed.

Lemma SpanSet_getArea_nil : SpanSet_getArea [] = 0.
Proof. reflexivity. Qed.

(** With a maximum that converts to zero every footprint with a pixel is
    oversized, its core included: no depth is enough. *)
Lemma growCandidate_zero_max (fuel : nat) (fpGrowPix : Z)
    templateMaskedImage scienceMaskedImage self :
  static_cast_size_t (fpNpixMax (_policy self)) = 0 ->
  forall fp, getSpans fp <> [] ->
    growCandidate fuel fp fpGrowPix templateMaskedImage scienceMaskedImage self = None.
Proof.
  intros Hmax. induction fuel as [|fuel IH]; intros fp Hfp; [reflexivity|].
  rewrite growCandidate_oversized.
  - apply IH. rewrite fpCore_of_spans. discriminate.
  - unfold oversized, Footprint_getArea. rewrite Hmax.
    pose proof (SpanSet_getArea_pos _ Hfp). apply Z.gtb_lt. lia.
Qed.

(** A footprint without pixels is never oversized. *)
Lemma empty_footprint_not_oversized self fp :
  getSpans fp = [] -> oversized self fp = false.
Proof.
  intros Hfp. unfold oversized, Footprint_getArea. rewrite Hfp, SpanSet_getArea_nil.
  pose proof (static_cast_size_t_nonneg (fpNpixMax (_policy self))).
  rewrite Z.gtb_ltb. apply Z.ltb_ge. lia.
Qed.

(** A call that accepts has grown the footprint it was handed, or the core
    of an oversized one. *)
Lemma growCandidate_accepts_pushes (fuel : nat) fp (fpGrowPix : Z)
    templateMaskedImage scienceMaskedImage self self' :
  growCandidate fuel fp fpGrowPix templateMaskedImage scienceMaskedImage self
    = Some (Ok true, self') ->
  self' = push_back self (fpGrow_of (candidateRegion self fp) fpGrowPix).
Proof.
  intros Hrun.
  assert (Hdirect : forall fuel0 fp0,
             oversized self fp0 = false ->
             growCandidate (S fuel0) fp0 fpGrowPix templateMaskedImage
                           scienceMaskedImage self = Some (Ok true, self') ->
             self' = push_back self (fpGrow_of fp0 fpGrowPix)).
  { intros fuel0 fp0 Hsize H0.
    destruct (growCandidate_direct fuel0 fp0 fpGrowPix templateMaskedImage
                scienceMaskedImage self Hsize) as [good [Hrun0 _]].
    rewrite Hrun0 in H0. inversion H0; subst. reflexivity. }
  destruct fuel as [|fuel]; [discriminate|].
  unfold candidateRegion. destruct (oversized self fp) eqn:Hsize.
  - rewrite growCandidate_oversized in Hrun by exact Hsize.
    destruct fuel as [|fuel]; [discriminate|].
    destruct (Z.eq_dec (static_cast_size_t (fpNpixMax (_policy self))) 0) as [Hz|Hnz].
    + rewrite growCandidate_zero_max in Hrun; [discriminate | exact Hz |].
      rewrite fpCore_of_spans. discriminate.
    + apply (Hdirect fuel); [|exact Hrun]. now apply fpCore_of_not_oversized.
  - now apply (Hdirect fuel).
Qed.

End RecursionFacts.

Section RecursionProperties.

Context {PixelT double : Type}.
Implicit Types (fp : Footprint) (self : @KernelCandidateDetection double).
Implicit Types (templateMaskedImage scienceMaskedImage : @MaskedImage PixelT).

(** X1.  [growCandidate] returns, at some call depth, if and only if
    [fpNpixMax] does not convert to zero or the footprint has no pixel: with
    [fpNpixMax = 0] the core of a footprint is oversized again and the
    recursion never ends. *)
Theorem growCandidate_returns_iff (fp : Footprint) (fpGrowPix : Z)
    templateMaskedImage scienceMaskedImage self :
  (exists fuel out,
      growCandidate fuel fp fpGrowPix templateMaskedImage scienceMaskedImage self
        = Some out) <->
  (static_cast_size_t (fpNpixMax (_policy self)) <> 0 \/ getSpans fp = []).
Proof.
  split.
  - intros [fuel [out Hrun]].
    destruct (Z.eq_dec (static_cast_size_t (fpNpixMax (_policy self))) 0) as [Hz|Hnz];
      [|now left].
    destruct (getSpans fp) as [|p ps] eqn:Hfp; [now right|].
    rewrite growCandidate_zero_max in Hrun; [discriminate | exact Hz |].
    rewrite Hfp. discriminate.
  - intros [Hnz|Hfp].
    + destruct (growCandidate_total 0 fp fpGrowPix templateMaskedImage
                  scienceMaskedImage self Hnz) as [r [self' Hrun]].
      exists 2%nat, (r, self'). exact Hrun.
    + destruct (growCandidate_direct 0 fp fpGrowPix templateMaskedImage
                  scienceMaskedImage self (empty_footprint_not_oversized self fp Hfp))
        as [good [Hrun _]].
      exists 1%nat. eexists. exact Hrun.
Qed.

(** X3.  A negative [fpNpixMax] switches the oversize guard off: converted
    to [std::size_t] it exceeds every area below 2^63, so the footprint is
    grown whole, in a single call, however many pixels it has. *)
Theorem negative_fpNpixMax_disables_oversize_guard (fuel : nat) fp (fpGrowPix : Z)
    templateMaskedImage scienceMaskedImage self :
  INT_MIN <= fpNpixMax (_policy self) < 0 ->
  Footprint_getArea fp <= 2 ^ 63 ->
  oversized self fp = false /\
  exists good : bool,
    growCandidate (S fuel) fp fpGrowPix templateMaskedImage scienceMaskedImage self =
      Some (Ok good, if good then push_back self (fpGrow_of fp fpGrowPix) else self).
Proof.
  intros Hneg Harea.
  assert (Hsize : oversized self fp = false).
  { unfold oversized, static_cast_size_t. rewrite Z.gtb_ltb. apply Z.ltb_ge.
    unfold INT_MIN in Hneg.
    assert (H64 : 2 ^ 64 = 18446744073709551616) by reflexivity.
    assert (H63 : 2 ^ 63 = 9223372036854775808) by reflexivity.
    assert (H31 : 2 ^ 31 = 2147483648) by reflexivity.
    rewrite H64. rewrite H63 in Harea. rewrite H31 in Hneg.
    replace (fpNpixMax (_policy self) mod 18446744073709551616)
      with (fpNpixMax (_policy self) + 18446744073709551616).
    - lia.
    - apply Z.mod_unique with (q := -1); lia. }
  split; [exact Hsize|].
  destruct (growCandidate_direct fuel fp fpGrowPix templateMaskedImage
              scienceMaskedImage self Hsize) as [good [Hrun _]].
  now exists good.
Qed.

End RecursionProperties.

Lemma negative_fpNpixMax_disables_oversize_guard_witness :
  INT_MIN <= fpNpixMax (_policy Scenario.detectionNegativeMax) < 0 /\
  Footprint_getArea Scenario.extendedSource <= 2 ^ 63 /\
  oversized Scenario.detectionNegativeMax Scenario.extendedSource = false /\
  oversized Scenario.detection Scenario.extendedSource = true.
Proof.
  assert (Hneg : INT_MIN <= fpNpixMax (_policy Scenario.detectionNegativeMax) < 0)
    by (vm_compute; split; [discriminate | reflexivity]).
  assert (Harea : Footprint_getArea Scenario.extendedSource <= 2 ^ 63)
    by (vm_compute; discriminate).
  split; [exact Hneg|]. split; [exact Harea|]. split.
  - exact (proj1 (negative_fpNpixMax_disables_oversize_guard 0 Scenario.extendedSource 5
                    Scenario.cleanImage Scenario.cleanImage
                    Scenario.detectionNegativeMax Hneg Harea)).
  - vm_compute. reflexivity.
Defined.

(** ** What a call of growCandidate depends on *)

Section DecisionFacts.

Context {PixelT double : Type}.
Implicit Types (fp : Footprint) (self : @KernelCandidateDetection double).
Implicit Types (templateMaskedImage scienceMaskedImage : @MaskedImage PixelT).

Lemma quot_2_between (a b : Z) : a <= b -> a <= Z.quot (a + b) 2 <= b.
Proof.
  intros Hab.
  pose proof (Z.quot_rem' (a + b) 2) as E.
  destruct (Z_le_gt_dec 0 (a + b)) as [Hs|Hs].
  - pose proof (Z.rem_bound_pos (a + b) 2 Hs ltac:(lia)). lia.
  - pose proof (Z.rem_nonpos (a + b) 2 ltac:(lia) ltac:(lia)).
    pose proof (Z.rem_bound_abs (a + b) 2 ltac:(lia)) as B.
    change (Z.abs 2) with 2 in B. lia.
Qed.

Lemma accepts_oversized (fuel : nat) fp (fpGrowPix : Z)
    templateMaskedImage scienceMaskedImage self :
  oversized self fp = true ->
  accepts (S fuel) fp fpGrowPix templateMaskedImage scienceMaskedImage self =
  accepts fuel (fpCore_of (Footprint_getBBox fp)) fpGrowPix
          templateMaskedImage scienceMaskedImage self.
Proof.
  intros H. unfold accepts. now rewrite growCandidate_oversized.
Qed.

Lemma accepts_direct (fuel : nat) fp (fpGrowPix : Z)
    templateMaskedImage scienceMaskedImage self :
  oversized self fp = false ->
  accepts (S fuel) fp fpGrowPix templateMaskedImage scienceMaskedImage self = true <->
  ~ (grownOffImage templateMaskedImage (Footprint_getBBox (fpGrow_of fp fpGrowPix)) \/
     contaminated (_badBitMask self) templateMaskedImage scienceMaskedImage
                  (Footprint_getBBox (fpGrow_of fp fpGrowPix))).
Proof.
  intros Hsize. unfold accepts.
  destruct (growCandidate_direct fuel fp fpGrowPix templateMaskedImage
              scienceMaskedImage self Hsize) as [good [-> Hgood]].
  destruct good.
  - split; [|reflexivity]. intros _ H. apply Hgood in H. discriminate.
  - split; [discriminate|]. intros H. exfalso. now apply H, Hgood.
Qed.

(** A mask meets fewer bad bits in fewer places. *)
Lemma maskIntersects_fewer_bits (m1 m2 : MaskPixel) (img : @MaskedImage PixelT)
    (bbox : Box2I) :
  Z.land m2 m1 = m2 ->
  maskIntersects m2 img bbox -> maskIntersects m1 img bbox.
Proof.
  intros Hsub [p [Hp Hbit]]. exists p. split; [exact Hp|].
  intros Hzero. apply Hbit.
  rewrite <- Hsub, Z.land_assoc, (Z.land_comm (MaskedImage_mask img p) m2),
    <- Z.land_assoc, Hzero. apply Z.land_0_r.
Qed.

Lemma maskIntersects_zero (img : @MaskedImage PixelT) (bbox : Box2I) :
  ~ maskIntersects 0 img bbox.
Proof. intros [p [_ H]]. apply H. apply Z.land_0_r. Qed.

(** Two results of a direct call that are rejected in the same cases are the
    same result. *)
Lemma growCandidate_direct_ext (fuel : nat) fp (fpGrowPix : Z)
    (t s t' s' : @MaskedImage PixelT) self :
  oversized self fp = false ->
  ((grownOffImage t (Footprint_getBBox (fpGrow_of fp fpGrowPix)) \/
    contaminated (_badBitMask self) t s (Footprint_getBBox (fpGrow_of fp fpGrowPix)))
   <->
   (grownOffImage t' (Footprint_getBBox (fpGrow_of fp fpGrowPix)) \/
    contaminated (_badBitMask self) t' s' (Footprint_getBBox (fpGrow_of fp fpGrowPix)))) ->
  growCandidate (S fuel) fp fpGrowPix t' s' self =
  growCandidate (S fuel) fp fpGrowPix t s self.
Proof.
  intros Hsize Hsame.
  destruct (growCandidate_direct fuel fp fpGrowPix t s self Hsize)
    as [good [-> Hgood]].
  destruct (growCandidate_direct fuel fp fpGrowPix t' s' self Hsize)
    as [good' [-> Hgood']].
  assert (good' = good) as ->; [|reflexivity].
  destruct good, good'; try reflexivity.
  - exfalso. assert (H : true = false) by (apply Hgood, Hsame, Hgood'; reflexivity).
    discriminate.
  - exfalso. assert (H : true = false) by (apply Hgood', Hsame, Hgood; reflexivity).
    discriminate.
Qed.

End DecisionFacts.

Section DecisionProperties.

Context {PixelT double : Type}.
Implicit Types (fp : Footprint) (self : @KernelCandidateDetection double).
Implicit Types (templateMaskedImage scienceMaskedImage : @MaskedImage PixelT).

(** X6.  Whatever the footprint, oversized or not, and whatever the images,
    a call of [growCandidate] that returns never lets an exception out, a
    failed sub-image extraction included; it leaves the policy and the
    bad-bit mask alone, leaves the candidate list alone when it returns
    [false], and when it returns [true] has appended the grown candidate
    region and nothing else. *)
Theorem growCandidate_never_throws (fuel : nat) fp (fpGrowPix : Z)
    templateMaskedImage scienceMaskedImage self out :
  growCandidate fuel fp fpGrowPix templateMaskedImage scienceMaskedImage self
    = Some out ->
  exists good : bool,
    fst out = Ok good /\
    _policy (snd out) = _policy self /\
    _badBitMask (snd out) = _badBitMask self /\
    _footprints (snd out) =
      if good
      then _footprints self ++ [fpGrow_of (candidateRegion self fp) fpGrowPix]
      else _footprints self.
Proof.
  destruct out as [r self']. intros Hrun. cbn [fst snd].
  pose proof Hrun as Hcase.
  apply growCandidate_outcome in Hcase as [[-> ->]|[-> _]].
  - exists false. now repeat split.
  - apply growCandidate_accepts_pushes in Hrun. subst self'.
    exists true. now repeat split.
Qed.

(** X10.  With no bad bit configured the masks have no say: a footprint
    that is not oversized is accepted if and only if its grown bounding box
    lies inside the template image and inside the science image. *)
Theorem zero_badBitMask_ignores_masks (fuel : nat) fp (fpGrowPix : Z)
    templateMaskedImage scienceMaskedImage self :
  _badBitMask self = 0 ->
  oversized self fp = false ->
  exists good : bool,
    growCandidate (S fuel) fp fpGrowPix templateMaskedImage scienceMaskedImage self =
      Some (Ok good, if good then push_back self (fpGrow_of fp fpGrowPix) else self) /\
    (good = true <->
     contains (MaskedImage_getBBox templateMaskedImage)
              (Footprint_getBBox (fpGrow_of fp fpGrowPix)) = true /\
     contains (MaskedImage_getBBox scienceMaskedImage)
              (Footprint_getBBox (fpGrow_of fp fpGrowPix)) = true).
Proof.
  intros Hzero Hsize.
  destruct (growCandidate_direct fuel fp fpGrowPix templateMaskedImage
              scienceMaskedImage self Hsize) as [good [Hrun Hgood]].
  exists good. split; [exact Hrun|].
  unfold grownOffImage, contaminated, extractionFails in Hgood.
  rewrite !MaskedImage_subimage_throws, Hzero in Hgood.
  pose proof (maskIntersects_zero templateMaskedImage
                (Footprint_getBBox (fpGrow_of fp fpGrowPix))) as Ht.
  pose proof (maskIntersects_zero scienceMaskedImage
                (Footprint_getBBox (fpGrow_of fp fpGrowPix))) as Hs.
  destruct (contains (MaskedImage_getBBox templateMaskedImage) _),
           (contains (MaskedImage_getBBox scienceMaskedImage) _);
    cbn [negb] in Hgood; destruct good;
    intuition (try discriminate; try congruence).
Qed.

(** X11.  Configuring fewer bad bits can only accept more: a footprint
    accepted under a bad-bit mask is accepted, with the same policy and
    images, under every mask whose bits are among that mask's bits. *)
Theorem fewer_bad_bits_accept_more (fuel : nat) (fpGrowPix : Z)
    templateMaskedImage scienceMaskedImage self1 self2 :
  _policy self2 = _policy self1 ->
  Z.land (_badBitMask self2) (_badBitMask self1) = _badBitMask self2 ->
  forall fp,
    accepts fuel fp fpGrowPix templateMaskedImage scienceMaskedImage self1 = true ->
    accepts fuel fp fpGrowPix templateMaskedImage scienceMaskedImage self2 = true.
Proof.
  intros Hpol Hsub. induction fuel as [|fuel IH]; intros fp Hacc; [discriminate|].
  assert (Hsize : oversized self2 fp = oversized self1 fp)
    by (unfold oversized; now rewrite Hpol).
  destruct (oversized self1 fp) eqn:H1.
  - rewrite accepts_oversized in * by assumption. now apply IH.
  - apply accepts_direct in Hacc; [|exact H1].
    apply accepts_direct; [exact Hsize|].
    intros [Hoff|[Ht|[Hs|[Hmt|Hms]]]]; apply Hacc.
    + now left.
    + right. now left.
    + right. right. now left.
    + right. right. right. left. now apply (maskIntersects_fewer_bits _ _ _ _ Hsub).
    + right. right. right. right. now apply (maskIntersects_fewer_bits _ _ _ _ Hsub).
Qed.

(** X12.  Between two images with the same bounding box it does not matter
    which one is the template: [growCandidate] gives the same result with
    the two images exchanged. *)
Theorem growCandidate_symmetric_in_images (fuel : nat) (fpGrowPix : Z)
    templateMaskedImage scienceMaskedImage self :
  MaskedImage_getBBox templateMaskedImage = MaskedImage_getBBox scienceMaskedImage ->
  forall fp,
    growCandidate fuel fp fpGrowPix templateMaskedImage scienceMaskedImage self =
    growCandidate fuel fp fpGrowPix scienceMaskedImage templateMaskedImage self.
Proof.
  intros Hbox. induction fuel as [|fuel IH]; intros fp; [reflexivity|].
  destruct (oversized self fp) eqn:Hsize.
  - rewrite !growCandidate_oversized by exact Hsize. apply IH.
  - apply growCandidate_direct_ext; [exact Hsize|].
    unfold grownOffImage, contaminated, extractionFails.
    rewrite !MaskedImage_subimage_throws, Hbox. tauto.
Qed.

(** X13.  The decision on a footprint that is not oversized reads the two
    images' bounding boxes and their mask pixels inside the grown bounding
    box, nothing else: images that agree on these (whatever their pixel
    values, variances and masks elsewhere) give the same result. *)
Theorem growCandidate_reads_masks_inside_grown_bbox (fuel : nat) fp (fpGrowPix : Z)
    (t s t' s' : @MaskedImage PixelT) self :
  oversized self fp = false ->
  MaskedImage_getBBox t' = MaskedImage_getBBox t ->
  MaskedImage_getBBox s' = MaskedImage_getBBox s ->
  (forall p,
      containsPoint (Footprint_getBBox (fpGrow_of fp fpGrowPix)) p = true ->
      MaskedImage_mask t' p = MaskedImage_mask t p /\
      MaskedImage_mask s' p = MaskedImage_mask s p) ->
  growCandidate (S fuel) fp fpGrowPix t' s' self =
  growCandidate (S fuel) fp fpGrowPix t s self.
Proof.
  intros Hsize Ht Hs Hmask.
  apply growCandidate_direct_ext; [exact Hsize|].
  assert (Hmt : maskIntersects (_badBitMask self) t
                  (Footprint_getBBox (fpGrow_of fp fpGrowPix)) <->
                maskIntersects (_badBitMask self) t'
                  (Footprint_getBBox (fpGrow_of fp fpGrowPix))).
  { split; intros [p [Hp Hbit]]; exists p; (split; [exact Hp|]);
      destruct (Hmask p Hp) as [E _]; [rewrite E | rewrite <- E]; exact Hbit. }
  assert (Hms : maskIntersects (_badBitMask self) s
                  (Footprint_getBBox (fpGrow_of fp fpGrowPix)) <->
                maskIntersects (_badBitMask self) s'
                  (Footprint_getBBox (fpGrow_of fp fpGrowPix))).
  { split; intros [p [Hp Hbit]]; exists p; (split; [exact Hp|]);
      destruct (Hmask p Hp) as [_ E]; [rewrite E | rewrite <- E]; exact Hbit. }
  unfold grownOffImage, contaminated, extractionFails.
  rewrite !MaskedImage_subimage_throws, Ht, Hs. tauto.
Qed.

(** X14.  When the sums of the corners' coordinates of a non-empty
    bounding box fit in an [int], the core that replaces an oversized
    footprint is the pixel at the corners' midpoint truncated toward zero (in
    absolute value never past the exact half-sum), it lies between the box's
    corners, negative coordinates included, and the core's own bounding box
    is contained in the footprint's. *)
Theorem fpCore_inside_bbox (fpBBox : Box2I) :
  isEmpty fpBBox = false ->
  INT_MIN <= getMinX fpBBox + getMaxX fpBBox <= INT_MAX ->
  INT_MIN <= getMinY fpBBox + getMaxY fpBBox <= INT_MAX ->
  getSpans (fpCore_of fpBBox) =
    [mkPoint2I (Z.quot (getMinX fpBBox + getMaxX fpBBox) 2)
               (Z.quot (getMinY fpBBox + getMaxY fpBBox) 2)] /\
  Z.abs (2 * Z.quot (getMinX fpBBox + getMaxX fpBBox) 2)
    <= Z.abs (getMinX fpBBox + getMaxX fpBBox) /\
  Z.abs (2 * Z.quot (getMinY fpBBox + getMaxY fpBBox) 2)
    <= Z.abs (getMinY fpBBox + getMaxY fpBBox) /\
  containsPoint fpBBox
    (mkPoint2I (Z.quot (getMinX fpBBox + getMaxX fpBBox) 2)
               (Z.quot (getMinY fpBBox + getMaxY fpBBox) 2)) = true /\
  contains fpBBox (Footprint_getBBox (fpCore_of fpBBox)) = true.
Proof.
  intros Hne Hfitx Hfity.
  assert (Hx : getMinX fpBBox <= getMaxX fpBBox /\ getMinY fpBBox <= getMaxY fpBBox).
  { unfold isEmpty in Hne. apply orb_false_iff in Hne as [Hw Hh].
    apply Z.leb_gt in Hw, Hh. unfold getMinX, getMaxX, getMinY, getMaxY. lia. }
  destruct Hx as [Hx Hy].
  pose proof (quot_2_between _ _ Hx) as Bx.
  pose proof (quot_2_between _ _ Hy) as By.
  assert (Hspans : getSpans (fpCore_of fpBBox) =
                   [mkPoint2I (Z.quot (getMinX fpBBox + getMaxX fpBBox) 2)
                              (Z.quot (getMinY fpBBox + getMaxY fpBBox) 2)]).
  { rewrite fpCore_of_spans.
    now rewrite (int_half_sum_in_range _ _ Hfitx), (int_half_sum_in_range _ _ Hfity). }
  assert (Hin : containsPoint fpBBox
                  (mkPoint2I (Z.quot (getMinX fpBBox + getMaxX fpBBox) 2)
                             (Z.quot (getMinY fpBBox + getMaxY fpBBox) 2)) = true).
  { unfold containsPoint. cbn [getX getY]. rewrite !andb_true_iff, !Z.leb_le. lia. }
  split; [exact Hspans|].
  split; [apply quot_2_toward_zero|].
  split; [apply quot_2_toward_zero|].
  split; [exact Hin|].
  unfold Footprint_getBBox. apply SpanSet_getBBox_least.
  intros p Hp. rewrite Hspans in Hp. destruct Hp as [<-|[]]. exact Hin.
Qed.

End DecisionProperties.

Lemma growCandidate_never_throws_witness :
  growCandidate 1 Scenario.source 5 Scenario.cleanImage Scenario.smallImage
                Scenario.detection = Some (Ok false, Scenario.detection) /\
  extractionFails Scenario.smallImage (Footprint_getBBox (fpGrow_of Scenario.source 5)) /\
  exists good : bool,
    fst (Ok false, Scenario.detection) = Ok good /\
    _policy (snd (Ok false, Scenario.detection)) = _policy Scenario.detection /\
    _badBitMask (snd (Ok false, Scenario.detection)) = _badBitMask Scenario.detection /\
    _footprints (snd (Ok false, Scenario.detection)) =
      if good
      then _footprints Scenario.detection ++
           [fpGrow_of (candidateRegion Scenario.detection Scenario.source) 5]
      else _footprints Scenario.detection.
Proof.
  assert (Hrun : growCandidate 1 Scenario.source 5 Scenario.cleanImage Scenario.smallImage
                   Scenario.detection = Some (Ok false, Scenario.detection))
    by (vm_compute; reflexivity).
  split; [exact Hrun|]. split; [vm_compute; reflexivity|].
  exact (growCandidate_never_throws 1 Scenario.source 5 Scenario.cleanImage
           Scenario.smallImage Scenario.detection _ Hrun).
Defined.

Lemma zero_badBitMask_ignores_masks_witness :
  _badBitMask Scenario.detectionNoBadBits = 0 /\
  oversized Scenario.detectionNoBadBits Scenario.source = false /\
  exists good : bool,
    growCandidate 1 Scenario.source 5 Scenario.flaggedImage Scenario.saturatedImage
                  Scenario.detectionNoBadBits =
      Some (Ok good,
            if good
            then push_back Scenario.detectionNoBadBits (fpGrow_of Scenario.source 5)
            else Scenario.detectionNoBadBits) /\
    (good = true <->
     contains (MaskedImage_getBBox Scenario.flaggedImage)
              (Footprint_getBBox (fpGrow_of Scenario.source 5)) = true /\
     contains (MaskedImage_getBBox Scenario.saturatedImage)
              (Footprint_getBBox (fpGrow_of Scenario.source 5)) = true).
Proof.
  assert (Hsize : oversized Scenario.detectionNoBadBits Scenario.source = false)
    by (vm_compute; reflexivity).
  split; [reflexivity|]. split; [exact Hsize|].
  exact (zero_badBitMask_ignores_masks 0 Scenario.source 5 Scenario.flaggedImage
           Scenario.saturatedImage Scenario.detectionNoBadBits eq_refl Hsize).
Defined.

Lemma fewer_bad_bits_accept_more_witness :
  _policy Scenario.detectionBadOnly = _policy Scenario.detection /\
  Z.land (_badBitMask Scenario.detectionBadOnly) (_badBitMask Scenario.detection)
    = _badBitMask Scenario.detectionBadOnly /\
  accepts 1 Scenario.source 5 Scenario.cleanImage Scenario.flaggedElsewhereImage
          Scenario.detection = true /\
  accepts 1 Scenario.source 5 Scenario.cleanImage Scenario.flaggedElsewhereImage
          Scenario.detectionBadOnly = true.
Proof.
  assert (Hacc : accepts 1 Scenario.source 5 Scenario.cleanImage
                   Scenario.flaggedElsewhereImage Scenario.detection = true)
    by (vm_compute; reflexivity).
  split; [reflexivity|]. split; [reflexivity|]. split; [exact Hacc|].
  exact (fewer_bad_bits_accept_more 1 5 Scenario.cleanImage
           Scenario.flaggedElsewhereImage Scenario.detection Scenario.detectionBadOnly
           eq_refl eq_refl Scenario.source Hacc).
Defined.

Lemma growCandidate_symmetric_in_images_witness :
  MaskedImage_getBBox Scenario.cleanImage = MaskedImage_getBBox Scenario.flaggedImage /\
  growCandidate 1 Scenario.source 5 Scenario.cleanImage Scenario.flaggedImage
                Scenario.detection =
  growCandidate 1 Scenario.source 5 Scenario.flaggedImage Scenario.cleanImage
                Scenario.detection.
Proof.
  split; [reflexivity|].
  exact (growCandidate_symmetric_in_images 1 5 Scenario.cleanImage Scenario.flaggedImage
           Scenario.detection eq_refl Scenario.source).
Defined.

Lemma growCandidate_reads_masks_inside_grown_bbox_witness :
  oversized Scenario.detection Scenario.source = false /\
  containsPoint (Footprint_getBBox (fpGrow_of Scenario.source 5)) (mkPoint2I 60 60)
    = false /\
  growCandidate 1 Scenario.source 5 Scenario.flaggedElsewhereImage
                Scenario.flaggedElsewhereImage Scenario.detection =
  growCandidate 1 Scenario.source 5 Scenario.cleanImage Scenario.cleanImage
                Scenario.detection.
Proof.
  assert (Hsize : oversized Scenario.detection Scenario.source = false)
    by (vm_compute; reflexivity).
  assert (Hout : containsPoint (Footprint_getBBox (fpGrow_of Scenario.source 5))
                               (mkPoint2I 60 60) = false)
    by (vm_compute; reflexivity).
  split; [exact Hsize|]. split; [exact Hout|].
  apply (growCandidate_reads_masks_inside_grown_bbox 0 Scenario.source 5
           Scenario.cleanImage Scenario.cleanImage
           Scenario.flaggedElsewhereImage Scenario.flaggedElsewhereImage
           Scenario.detection Hsize eq_refl eq_refl).
  intros p Hp.
  unfold Scenario.flaggedElsewhereImage, Scenario.cleanImage, Scenario.image64.
  cbn [MaskedImage_mask].
  destruct (Point2I_eq_dec p (mkPoint2I 60 60)) as [->|_].
  - rewrite Hout in Hp. discriminate.
  - split; reflexivity.
Defined.

Lemma fpCore_inside_bbox_witness :
  isEmpty (Footprint_getBBox Scenario.extendedSource) = false /\
  INT_MIN <= getMinX (Footprint_getBBox Scenario.extendedSource)
             + getMaxX (Footprint_getBBox Scenario.extendedSource) <= INT_MAX /\
  INT_MIN <= getMinY (Footprint_getBBox Scenario.extendedSource)
             + getMaxY (Footprint_getBBox Scenario.extendedSource) <= INT_MAX /\
  containsPoint (Footprint_getBBox Scenario.extendedSource) (mkPoint2I 24 24) = true.
Proof.
  assert (Hne : isEmpty (Footprint_getBBox Scenario.extendedSource) = false)
    by (vm_compute; reflexivity).
  assert (Hfitx : INT_MIN <= getMinX (Footprint_getBBox Scenario.extendedSource)
                             + getMaxX (Footprint_getBBox Scenario.extendedSource)
                  <= INT_MAX)
    by (vm_compute; split; discriminate).
  assert (Hfity : INT_MIN <= getMinY (Footprint_getBBox Scenario.extendedSource)
                             + getMaxY (Footprint_getBBox Scenario.extendedSource)
                  <= INT_MAX)
    by (vm_compute; split; discriminate).
  split; [exact Hne|]. split; [exact Hfitx|]. split; [exact Hfity|].
  exact (proj1 (proj2 (proj2 (proj2
           (fpCore_inside_bbox (Footprint_getBBox Scenario.extendedSource)
                               Hne Hfitx Hfity))))).
Defined.

(** ** What a pass of apply leaves behind *)

Section PassFacts.

Context {PixelT double : Type}.
Implicit Types (fp : Footprint) (self : @KernelCandidateDetection double).
Implicit Types (templateMaskedImage scienceMaskedImage : @MaskedImage PixelT).

Lemma candidateRegion_set_footprints self (l : list Footprint) fp :
  candidateRegion (set_footprints self l) fp = candidateRegion self fp.
Proof. reflexivity. Qed.

(** The loop appends, in the order of the list, the grown candidate region
    of each footprint it accepts. *)
Lemma growCandidates_footprints (fuel : nat) (fpGrowPix : Z)
    templateMaskedImage scienceMaskedImage (footprintList : list Footprint) :
  forall self out self',
    growCandidates fuel footprintList fpGrowPix templateMaskedImage
                   scienceMaskedImage self = Some (out, self') ->
    _footprints self' =
      _footprints self ++
      map (fun fp => fpGrow_of (candidateRegion self fp) fpGrowPix)
          (filter (fun fp => accepts fuel fp fpGrowPix templateMaskedImage
                                     scienceMaskedImage self)
                  footprintList).
Proof.
  induction footprintList as [|i rest IH]; intros self out self' Hrun.
  - cbn [growCandidates] in Hrun. inversion Hrun; subst.
    cbn [filter map]. now rewrite app_nil_r.
  - cbn [growCandidates] in Hrun.
    destruct (growCandidate fuel i fpGrowPix templateMaskedImage scienceMaskedImage self)
      as [[r self1]|] eqn:Hi; [|discriminate].
    assert (Hacc : accepts fuel i fpGrowPix templateMaskedImage scienceMaskedImage self =
                   match r with Ok true => true | _ => false end).
    { unfold accepts. now rewrite Hi. }
    pose proof Hi as Hcase.
    apply growCandidate_outcome in Hcase as [[-> ->]|[-> _]].
    + apply IH in Hrun. cbn [filter]. now rewrite Hacc.
    + apply growCandidate_accepts_pushes in Hi. subst self1.
      apply IH in Hrun. cbn [filter]. rewrite Hacc. cbn [map].
      rewrite Hrun. unfold push_back at 1. cbn [set_footprints _footprints].
      rewrite <- app_assoc. cbn [app]. f_equal. f_equal.
      rewrite (filter_ext _ (fun fp => accepts fuel fp fpGrowPix templateMaskedImage
                                               scienceMaskedImage self))
        by (intros fp; apply accepts_set_footprints).
      apply map_ext. intros fp. unfold push_back.
      now rewrite candidateRegion_set_footprints.
Qed.

Lemma growCandidates_zero_max (fuel : nat) (fpGrowPix : Z)
    templateMaskedImage scienceMaskedImage (footprintList : list Footprint) :
  forall self,
    static_cast_size_t (fpNpixMax (_policy self)) = 0 ->
    (exists fp, In fp footprintList /\ getSpans fp <> []) ->
    growCandidates fuel footprintList fpGrowPix templateMaskedImage
                   scienceMaskedImage self = None.
Proof.
  induction footprintList as [|i rest IH]; intros self Hmax [fp [Hin Hfp]];
    [destruct Hin|].
  cbn [growCandidates].
  destruct (growCandidate fuel i fpGrowPix templateMaskedImage scienceMaskedImage self)
    as [[r self1]|] eqn:Hi; [|reflexivity].
  assert (Hrest : In fp rest).
  { destruct Hin as [->|Hin]; [|exact Hin].
    rewrite growCandidate_zero_max in Hi by assumption. discriminate. }
  apply growCandidate_outcome in Hi as [[-> ->]|[-> [g [-> _]]]];
    apply IH; try exact Hmax; now exists fp.
Qed.

Lemma growCandidates_empty_footprints (fpGrowPix : Z)
    templateMaskedImage scienceMaskedImage (footprintList : list Footprint) :
  forall self,
    (forall fp, In fp footprintList -> getSpans fp = []) ->
    exists out self',
      growCandidates 1 footprintList fpGrowPix templateMaskedImage
                     scienceMaskedImage self = Some (out, self').
Proof.
  induction footprintList as [|i rest IH]; intros self Hall.
  - cbn [growCandidates]. eauto.
  - cbn [growCandidates].
    destruct (growCandidate_direct 0 i fpGrowPix templateMaskedImage scienceMaskedImage
                self (empty_footprint_not_oversized self i (Hall i (or_introl eq_refl))))
      as [good [-> _]].
    apply IH. intros fp Hfp. apply Hall. now right.
Qed.

End PassFacts.

Section PassProperties.

Context {PixelT double Threshold : Type}.
Variable createThreshold : double -> string -> Threshold.
Variable FootprintSet_getFootprints :
  @MaskedImage PixelT -> Threshold -> string -> Z -> list Footprint.
Implicit Types (self : @KernelCandidateDetection double).
Implicit Types (templateMaskedImage scienceMaskedImage : @MaskedImage PixelT).

(** X2.  A pass of [apply] returns or raises, at some call depth, if and
    only if [fpNpixMax] does not convert to zero or no detected footprint has
    a pixel: with [fpNpixMax = 0] the first detected footprint sends
    [growCandidate] into its endless recursion. *)
Theorem apply_returns_iff templateMaskedImage scienceMaskedImage self :
  (exists fuel out,
      apply createThreshold FootprintSet_getFootprints fuel
            templateMaskedImage scienceMaskedImage self = Some out) <->
  (static_cast_size_t (fpNpixMax (_policy self)) <> 0 \/
   forall fp,
     In fp (detectedFootprints createThreshold FootprintSet_getFootprints
              (_policy self) templateMaskedImage scienceMaskedImage) ->
     getSpans fp = []).
Proof.
  split.
  - intros [fuel [out Hrun]].
    destruct (Z.eq_dec (static_cast_size_t (fpNpixMax (_policy self))) 0) as [Hz|Hnz];
      [|now left].
    right. intros fp Hin.
    destruct (getSpans fp) as [|p ps] eqn:Hfp; [reflexivity|]. exfalso.
    unfold apply in Hrun.
    rewrite growCandidates_zero_max in Hrun; [discriminate | exact Hz |].
    exists fp. split; [exact Hin|]. rewrite Hfp. discriminate.
  - intros [Hnz|Hall].
    + destruct (apply_total createThreshold FootprintSet_getFootprints 0
                  templateMaskedImage scienceMaskedImage self Hnz)
        as [out [self' Hrun]].
      exists 2%nat, (out, self'). exact Hrun.
    + exists 1%nat. unfold apply.
      match goal with
      | |- context [growCandidates _ ?l ?g ?t ?s ?x] =>
          destruct (growCandidates_empty_footprints g t s l x Hall) as [out [self1 ->]]
      end.
      destruct out as [u|e]; [|eauto].
      destruct (Z.of_nat (List.length (_footprints self1)) =? 0); eauto.
Qed.

(** X4.  A pass does not depend on the candidates of an earlier pass, and
    it is repeatable: run again on the object it left, with the same images,
    it ends the same way and leaves the same object. *)
Theorem apply_repeatable (fuel : nat) templateMaskedImage scienceMaskedImage self :
  (forall earlier : list Footprint,
      apply createThreshold FootprintSet_getFootprints fuel
            templateMaskedImage scienceMaskedImage (set_footprints self earlier) =
      apply createThreshold FootprintSet_getFootprints fuel
            templateMaskedImage scienceMaskedImage self) /\
  (forall out self',
      apply createThreshold FootprintSet_getFootprints fuel
            templateMaskedImage scienceMaskedImage self = Some (out, self') ->
      apply createThreshold FootprintSet_getFootprints fuel
            templateMaskedImage scienceMaskedImage self' = Some (out, self')).
Proof.
  assert (Hearlier : forall earlier : list Footprint,
      apply createThreshold FootprintSet_getFootprints fuel
            templateMaskedImage scienceMaskedImage (set_footprints self earlier) =
      apply createThreshold FootprintSet_getFootprints fuel
            templateMaskedImage scienceMaskedImage self) by reflexivity.
  split; [exact Hearlier|].
  intros out self' Hrun.
  assert (Hsame : self' = set_footprints self (_footprints self')).
  { unfold apply in Hrun.
    destruct (growCandidates fuel _ _ _ _ _) as [[r self1]|] eqn:Hloop; [|discriminate].
    apply growCandidates_spec in Hloop as [-> [Hpol [Hbad _]]].
    cbn [set_footprints _policy _badBitMask] in Hpol, Hbad.
    assert (self' = self1) as ->.
    { destruct (Z.of_nat (List.length (_footprints self1)) =? 0); now inversion Hrun. }
    destruct self1 as [pol1 bad1 fps1]. cbn in *. subst. reflexivity. }
  rewrite Hsame at 1. rewrite Hearlier. exact Hrun.
Qed.

(** X5.  The only exception a pass of [apply] raises is the one for an
    empty candidate list: a pass that ends either returns with a non-empty
    list or raises "Unable to find any footprints for Psf matching" with an
    empty one, and in both cases the policy is as before. *)
Theorem apply_raises_only_for_no_footprints (fuel : nat)
    templateMaskedImage scienceMaskedImage self out self' :
  apply createThreshold FootprintSet_getFootprints fuel
        templateMaskedImage scienceMaskedImage self = Some (out, self') ->
  _policy self' = _policy self /\
  ((out = Ok tt /\ _footprints self' <> []) \/
   (out = Throw (BaseException "Unable to find any footprints for Psf matching") /\
    _footprints self' = [])).
Proof.
  unfold apply.
  destruct (growCandidates fuel _ _ _ _ _) as [[r self1]|] eqn:Hloop; [|discriminate].
  apply growCandidates_spec in Hloop as [-> [Hpol _]].
  cbn [set_footprints _policy] in Hpol.
  destruct (Z.eqb_spec (Z.of_nat (List.length (_footprints self1))) 0) as [E|E];
    intros Hrun; inversion Hrun; subst out self'; (split; [exact Hpol|]).
  - right. split; [reflexivity|]. apply length_zero_iff_nil. lia.
  - left. split; [reflexivity|]. intros H. rewrite H in E. now apply E.
Qed.

(** X7.  After a pass the candidate list is, in detection order, the grown
    candidate region of each accepted footprint (the footprint itself, or its
    core when it was oversized); in particular it never has more entries
    than there were detections. *)
Theorem apply_candidates_in_detection_order (fuel : nat)
    templateMaskedImage scienceMaskedImage self out self' :
  apply createThreshold FootprintSet_getFootprints fuel
        templateMaskedImage scienceMaskedImage self = Some (out, self') ->
  _footprints self' =
    map (fun fp => fpGrow_of (candidateRegion self fp) (fpGrowPix (_policy self)))
        (filter (fun fp => accepts fuel fp (fpGrowPix (_policy self))
                                   templateMaskedImage scienceMaskedImage self)
                (detectedFootprints createThreshold FootprintSet_getFootprints
                   (_policy self) templateMaskedImage scienceMaskedImage)) /\
  (List.length (_footprints self') <=
   List.length (detectedFootprints createThreshold FootprintSet_getFootprints
                  (_policy self) templateMaskedImage scienceMaskedImage))%nat.
Proof.
  unfold apply.
  destruct (growCandidates fuel _ _ _ _ _) as [[r self1]|] eqn:Hloop; [|discriminate].
  apply growCandidates_footprints in Hloop.
  cbn [set_footprints _footprints _policy app] in Hloop.
  rewrite (filter_ext _ (fun fp => accepts fuel fp (fpGrowPix (_policy self))
                                     templateMaskedImage scienceMaskedImage self)) in Hloop
    by (intros fp; apply accepts_set_footprints).
  rewrite (map_ext _ (fun fp => fpGrow_of (candidateRegion self fp)
                                          (fpGrowPix (_policy self)))) in Hloop
    by (intros fp; now rewrite candidateRegion_set_footprints).
  intros Hrun.
  assert (self' = self1) as ->.
  { destruct r as [u|e]; [|now inversion Hrun].
    destruct (Z.of_nat (List.length (_footprints self1)) =? 0); now inversion Hrun. }
  split; [exact Hloop|].
  rewrite Hloop, length_map. apply filter_length_le.
Qed.

End PassProperties.

Lemma growCandidate_returns_iff_witness :
  static_cast_size_t (fpNpixMax (_policy Scenario.detectionZeroMax)) = 0 /\
  getSpans Scenario.source <> [] /\
  forall fuel,
    growCandidate fuel Scenario.source 5 Scenario.cleanImage Scenario.cleanImage
                  Scenario.detectionZeroMax = None.
Proof.
  split; [reflexivity|]. split; [discriminate|]. intros fuel.
  destruct (growCandidate fuel Scenario.source 5 Scenario.cleanImage Scenario.cleanImage
              Scenario.detectionZeroMax) as [out|] eqn:Hrun; [|reflexivity].
  destruct (proj1 (growCandidate_returns_iff Scenario.source 5 Scenario.cleanImage
                     Scenario.cleanImage Scenario.detectionZeroMax)
                  (ex_intro _ fuel (ex_intro _ out Hrun))) as [H|H].
  - exfalso. apply H. reflexivity.
  - discriminate H.
Defined.

Lemma apply_returns_iff_witness :
  static_cast_size_t (fpNpixMax (_policy Scenario.detectionZeroMax)) = 0 /\
  forall fuel,
    apply Scenario.threshold Scenario.detector fuel
          Scenario.cleanImage Scenario.cleanImage Scenario.detectionZeroMax = None.
Proof.
  split; [reflexivity|]. intros fuel.
  destruct (apply Scenario.threshold Scenario.detector fuel
              Scenario.cleanImage Scenario.cleanImage Scenario.detectionZeroMax)
    as [out|] eqn:Hrun; [|reflexivity].
  destruct (proj1 (apply_returns_iff Scenario.threshold Scenario.detector
                     Scenario.cleanImage Scenario.cleanImage Scenario.detectionZeroMax)
                  (ex_intro _ fuel (ex_intro _ out Hrun))) as [H|H].
  - exfalso. apply H. reflexivity.
  - specialize (H Scenario.source (or_intror (or_introl eq_refl))). discriminate H.
Defined.

Lemma apply_repeatable_witness :
  exists self',
    apply Scenario.threshold Scenario.detector 2
          Scenario.cleanImage Scenario.cleanImage Scenario.detection
      = Some (Ok tt, self') /\
    apply Scenario.threshold Scenario.detector 2
          Scenario.cleanImage Scenario.cleanImage self'
      = Some (Ok tt, self').
Proof.
  destruct (apply Scenario.threshold Scenario.detector 2
              Scenario.cleanImage Scenario.cleanImage Scenario.detection)
    as [[out self']|] eqn:Hrun; [|vm_compute in Hrun; discriminate].
  assert (Hout : out = Ok tt) by (vm_compute in Hrun; now inversion Hrun).
  subst out. exists self'. split; [reflexivity|].
  exact (proj2 (apply_repeatable Scenario.threshold Scenario.detector 2
                  Scenario.cleanImage Scenario.cleanImage Scenario.detection)
               (Ok tt) self' Hrun).
Defined.

Lemma apply_raises_only_for_no_footprints_witness :
  exists out self',
    apply Scenario.threshold Scenario.detector 2
          Scenario.cleanImage Scenario.flaggedImage Scenario.detection
      = Some (out, self') /\
    _policy self' = _policy Scenario.detection /\
    out = Throw (BaseException "Unable to find any footprints for Psf matching") /\
    _footprints self' = [].
Proof.
  destruct (apply Scenario.threshold Scenario.detector 2
              Scenario.cleanImage Scenario.flaggedImage Scenario.detection)
    as [[out self']|] eqn:Hrun; [|vm_compute in Hrun; discriminate].
  exists out, self'. split; [reflexivity|].
  destruct (apply_raises_only_for_no_footprints Scenario.threshold Scenario.detector 2
              Scenario.cleanImage Scenario.flaggedImage Scenario.detection out self' Hrun)
    as [Hpol [[Hout _]|[Hout Hnil]]].
  - exfalso. subst out. vm_compute in Hrun. discriminate.
  - now repeat split.
Defined.

Lemma apply_candidates_in_detection_order_witness :
  exists out self',
    apply Scenario.threshold Scenario.detector 2
          Scenario.cleanImage Scenario.cleanImage Scenario.detection
      = Some (out, self') /\
    (List.length (_footprints self') <= 2)%nat.
Proof.
  destruct (apply Scenario.threshold Scenario.detector 2
              Scenario.cleanImage Scenario.cleanImage Scenario.detection)
    as [[out self']|] eqn:Hrun; [|vm_compute in Hrun; discriminate].
  exists out, self'. split; [reflexivity|].
  exact (proj2 (apply_candidates_in_detection_order Scenario.threshold Scenario.detector 2
                  Scenario.cleanImage Scenario.cleanImage Scenario.detection
                  out self' Hrun)).
Defined.

(** ** What the constructor's mask depends on *)

Section ConstructorProperties.

Context {double : Type}.
Variable maskPlaneDict : MaskPlaneDict.

(** X8.  The bad-bit mask depends only on which registered plane names are
    configured: two policies that list the same registered names, in any
    order, any number of times and among any unknown names, give the same
    mask. *)
Theorem badBitMask_depends_on_registered_names (policy1 policy2 : @Policy double) :
  (forall name plane,
      getMaskPlane maskPlaneDict name = Some plane ->
      (In name (badMaskPlanes policy1) <-> In name (badMaskPlanes policy2))) ->
  exists self1 self2,
    new_KernelCandidateDetection maskPlaneDict policy1 = Ok self1 /\
    new_KernelCandidateDetection maskPlaneDict policy2 = Ok self2 /\
    _badBitMask self1 = _badBitMask self2.
Proof.
  intros Hsame. unfold new_KernelCandidateDetection.
  rewrite !updateBadBitMask_recognized. cbn [bind].
  do 2 eexists. split; [reflexivity|]. split; [reflexivity|].
  cbn [_badBitMask]. rewrite !fold_left_lor, !Z.lor_0_l.
  apply Z.bits_inj. intros i. apply eq_true_iff_eq.
  rewrite !testbit_fold_lor.
  split; intros [m [Hm Hbit]]; exists m; (split; [|exact Hbit]);
    apply In_recognizedBitMasks in Hm as [name [plane [Hname [E ->]]]];
    apply In_recognizedBitMasks; exists name, plane;
    (split; [now apply (Hsame name plane E) | now split]).
Qed.

(** X9.  When none of the configured plane names is registered (an empty
    list, or only misspelt names) the constructor still succeeds and the
    bad-bit mask is 0. *)
Theorem unknown_planes_give_zero_mask (policy : @Policy double) :
  (forall name, In name (badMaskPlanes policy) ->
                getMaskPlane maskPlaneDict name = None) ->
  new_KernelCandidateDetection maskPlaneDict policy =
    Ok (mkKernelCandidateDetection policy 0 []).
Proof.
  intros Hnone. unfold new_KernelCandidateDetection.
  rewrite updateBadBitMask_recognized. cbn [bind].
  assert (Hrec : recognizedBitMasks maskPlaneDict (badMaskPlanes policy) = []).
  { induction (badMaskPlanes policy) as [|name rest IH]; [reflexivity|].
    unfold recognizedBitMasks. cbn [flat_map].
    rewrite (Hnone name (or_introl eq_refl)). cbn [app].
    apply IH. intros n Hn. apply Hnone. now right. }
  now rewrite Hrec.
Qed.

End ConstructorProperties.

Lemma badBitMask_depends_on_registered_names_witness :
  exists self2,
    new_KernelCandidateDetection Scenario.planes Scenario.policyReordered = Ok self2 /\
    _badBitMask Scenario.detection = _badBitMask self2.
Proof.
  destruct (badBitMask_depends_on_registered_names Scenario.planes
              Scenario.policy Scenario.policyReordered) as [self1 [self2 [H1 [H2 E]]]].
  - intros name plane Hplane. cbn [Scenario.policy Scenario.policyReordered badMaskPlanes In].
    split.
    + intros [<-|[<-|[<-|[]]]]; [tauto | vm_compute in Hplane; discriminate | tauto].
    + intros [<-|[<-|[<-|[]]]]; tauto.
  - exists self2. split; [exact H2|].
    assert (Hself : self1 = Scenario.detection)
      by (vm_compute in H1; now inversion H1).
    now rewrite <- Hself.
Defined.

Lemma unknown_planes_give_zero_mask_witness :
  new_KernelCandidateDetection Scenario.planes Scenario.policyMisspelt =
    Ok (mkKernelCandidateDetection Scenario.policyMisspelt 0 []).
Proof.
  apply (unknown_planes_give_zero_mask Scenario.planes Scenario.policyMisspelt).
  intros name [<-|[<-|[]]]; reflexivity.
Defined.
